(** * AgroKoz ml-server: wheat grain detection statistics and grading

    A shallow embedding of [src/ml-server/server.py]: the class vocabulary,
    the per-box normalisation of the three endpoints, the class statistics,
    the quality grader, the batch loop, and the loss formulas written in
    the module docstring.

    Conventions of the embedding.
    - Python [int] counts are [nat], class indices are [Z].
    - Python [float] values are exact rationals ([Q]); the arithmetic on
      them ([/], [*], comparisons, [round]) is the exact one.  Equalities
      between such values are stated with [==] ([Qeq]).  The server
      computes [good / total * 100] in doubles: where the exact value is
      a tie of [round] (23 of 160 is 14.375), the double it rounds may
      lie on either side, so what is stated of the percentage reported
      is stated off the ties.
    - A Python dict used as a table ([CLASS_NAMES], [CLASS_COLORS]) is a
      [gmap]; a dict built as a JSON object is a record, and the [bbox]
      object, whose keys differ between endpoints, an association list.
    - Code that can raise returns an [outcome]; [try]/[except] is a match
      on it.
    - What the server obtains from outside (reading and decoding the
      upload, the YOLO model, the OpenCV drawing calls, the JPEG and
      base64 encoding) is a variable of the section that holds the
      endpoints; each of them may raise.  [datetime.now()] and the
      [print] calls are left out. *)

From Stdlib Require Import ZArith QArith Qround Qabs Lia Lqa.
From stdpp Require Import base option list gmap strings pretty.

(** ** Exceptions *)

(** Exceptions, as far as the server can see them: the [KeyError] of a
    failed dict subscript, the [AttributeError] of [None.startswith],
    FastAPI's [HTTPException], and any exception of class [Exception]
    raised by external code, carried by its message. *)
Inductive Exception : Type :=
| KeyError (key : Z)
| AttributeError (msg : string)
| HTTPException (status_code : Z) (detail : string)
| Raised (msg : string).

Inductive outcome (A : Type) : Type :=
| Returns (a : A)
| Raises (e : Exception).
Arguments Returns {A} a.
Arguments Raises {A} e.

(** Sequencing: an exception ends the block it is raised in. *)
#[global] Instance outcome_ret : MRet outcome := fun A a => Returns a.
#[global] Instance outcome_bind : MBind outcome := fun A B k m =>
  match m with
  | Returns a => k a
  | Raises e => Raises e
  end.

(** ** The Python operations the server uses *)

Module Py.

(** [d[key]] on a dict with integer keys. *)
Definition subscript {V : Type} (d : gmap Z V) (key : Z) : outcome V :=
  match d !! key with
  | Some v => Returns v
  | None => Raises (KeyError key)
  end.

(** [d.get(key, fallback)]. *)
Definition get {V : Type} (d : gmap Z V) (key : Z) (fallback : V) : V :=
  default fallback (d !! key).

(** [enumerate(xs)]. *)
Definition enumerate {A : Type} (xs : list A) : list (nat * A) :=
  zip (seq 0 (length xs)) xs.

(** [sum(...)] over integers. *)
Definition sum (xs : list nat) : nat := fold_left Nat.add xs 0.

(** The integer nearest to [q], ties going to the even one. *)
Definition round_half_even (q : Q) : Z :=
  let f := Qfloor q in
  match ((q - inject_Z f) ?= (1 # 2))%Q with
  | Lt => f
  | Gt => (f + 1)%Z
  | Eq => if Z.even f then f else (f + 1)%Z
  end.

(** [round(q, ndigits)] for [ndigits >= 0]. *)
Definition round (q : Q) (ndigits : nat) : Q :=
  let scale := inject_Z (10 ^ Z.of_nat ndigits) in
  (inject_Z (round_half_even (q * scale)) / scale)%Q.

(** [int(q)]: truncation towards zero. *)
Definition int (q : Q) : Z :=
  if Qle_bool 0%Q q then Qfloor q else Qceiling q.

(** [a / b * 100] on two integers ([/] is true division), as the exact
    quotient; the server's value is the double nearest to it, up to the
    rounding of the two operations. *)
Definition ratio_percent (a b : nat) : Q :=
  (inject_Z (Z.of_nat a) / inject_Z (Z.of_nat b) * 100)%Q.

(** [f"{q:.2f}"]: [q] with two decimals, the last one rounded on the
    exact value of [q], ties to even. *)
Definition format_2f (q : Q) : string :=
  let k := Z.abs (round_half_even (q * 100)) in
  let cents := (k mod 100)%Z in
  (if Qle_bool 0 q then "" else "-")
  +:+ pretty (k / 100)%Z +:+ "."
  +:+ (if (cents <? 10)%Z then "0" else "") +:+ pretty cents.

End Py.

(** ** Module constants *)

(** [CLASS_NAMES]. *)
Definition CLASS_NAMES : gmap Z string :=
  <[0%Z := "good"]> (<[1%Z := "bad"]> (<[2%Z := "impurity"]> ∅)).

(** [CLASS_COLORS] (RGB). *)
Definition CLASS_COLORS : gmap Z (Z * Z * Z) :=
  <[0%Z := (0, 255, 0)%Z]> (<[1%Z := (255, 0, 0)%Z]> (<[2%Z := (255, 165, 0)%Z]> ∅)).

(** ** Data *)

(** One entry of [result.boxes]: [box.xyxy[0]], [int(box.cls[0])] and
    [float(box.conf[0])]. *)
Record Box : Type := {
  xyxy : Q * Q * Q * Q;
  cls : Z;
  conf : Q
}.

(** A detection dict; [d_class] is its ["class"] entry. *)
Record Detection : Type := {
  d_id : nat;
  d_class : string;
  d_class_id : Z;
  d_confidence : Q;
  d_bbox : list (string * Q)
}.

(** The [statistics] dict of [/detect] and [/detect-with-image]. *)
Record Statistics : Type := {
  total_grains : nat;
  good : nat;
  bad : nat;
  impurity : nat;
  quality_percentage : Q;
  quality_grade : string
}.

(** ** The quality grader *)

(** [get_quality_grade]. *)
Definition get_quality_grade (percentage : Q) : string :=
  if Qle_bool 95%Q percentage then "Отлично (A)"
  else if Qle_bool 85%Q percentage then "Хорошо (B)"
  else if Qle_bool 75%Q percentage then "Удовлетворительно (C)"
  else if Qle_bool 60%Q percentage then "Плохо (D)"
  else "Очень плохо (F)".

(** The rank of a grade label under F < D < C < B < A, read off the
    letter the label carries. *)
Definition grade_rank (label : string) : option nat :=
  if decide (label = "Очень плохо (F)") then Some 0
  else if decide (label = "Плохо (D)") then Some 1
  else if decide (label = "Удовлетворительно (C)") then Some 2
  else if decide (label = "Хорошо (B)") then Some 3
  else if decide (label = "Отлично (A)") then Some 4
  else None.

(** ** Normalising the boxes *)

(** The body of the loop of [detect_grains]. *)
Definition detect_grains_detection (idx : nat) (box : Box) : Detection :=
  let '(x1, y1, x2, y2) := xyxy box in
  let center_x := ((x1 + x2) / 2)%Q in
  let center_y := ((y1 + y2) / 2)%Q in
  let width := (x2 - x1)%Q in
  let height := (y2 - y1)%Q in
  let class_id := cls box in
  {| d_id := idx;
     d_class := Py.get CLASS_NAMES class_id ("unknown_" +:+ pretty class_id);
     d_class_id := class_id;
     d_confidence := Py.round (conf box) 4;
     d_bbox := [ ("x1", Py.round x1 2); ("y1", Py.round y1 2);
                 ("x2", Py.round x2 2); ("y2", Py.round y2 2);
                 ("center_x", Py.round center_x 2);
                 ("center_y", Py.round center_y 2);
                 ("width", Py.round width 2);
                 ("height", Py.round height 2) ] |}.

(** The body of the loop of [detect_with_visualization]:
    [CLASS_NAMES[class_id]] is a subscript. *)
Definition detect_with_visualization_detection (idx : nat) (box : Box)
  : outcome Detection :=
  let '(x1, y1, x2, y2) := xyxy box in
  let class_id := cls box in
  name ← Py.subscript CLASS_NAMES class_id;
  Returns
    {| d_id := idx;
       d_class := name;
       d_class_id := class_id;
       d_confidence := Py.round (conf box) 4;
       d_bbox := [ ("x1", Py.round x1 2); ("y1", Py.round y1 2);
                   ("x2", Py.round x2 2); ("y2", Py.round y2 2) ] |}.

(** ** Statistics *)

(** [sum(1 for d in detections if d["class"] == name)]. *)
Definition class_count (name : string) (detections : list Detection) : nat :=
  Py.sum ((fun _ => 1) <$> filter (fun d => d_class d = name) detections).

(** [(good_count / total_count * 100) if total_count > 0 else 0]. *)
Definition quality_of (good_count total_count : nat) : Q :=
  if 0 <? total_count then Py.ratio_percent good_count total_count else 0%Q.

(** The statistics block shared by [detect_grains] and
    [detect_with_visualization]. *)
Definition statistics_of (detections : list Detection) : Statistics :=
  let good_count := class_count "good" detections in
  let bad_count := class_count "bad" detections in
  let impurity_count := class_count "impurity" detections in
  let total_count := length detections in
  let quality_percentage := quality_of good_count total_count in
  {| total_grains := total_count;
     good := good_count;
     bad := bad_count;
     impurity := impurity_count;
     quality_percentage := Py.round quality_percentage 2;
     quality_grade := get_quality_grade quality_percentage |}.

(** ** Drawing *)

(** A numpy image array: its shape (height, width, channels) and its
    bytes. *)
Record ndarray : Type := {
  shape : Z * Z * Z;
  data : list Z
}.

(** The OpenCV calls of [draw_detections], with the arguments that vary:
    [cv2.rectangle(img, pt1, pt2, color, thickness)],
    [cv2.getTextSize(text, FONT_HERSHEY_SIMPLEX, 0.5, 1)[0]] and
    [cv2.putText(img, text, org, FONT_HERSHEY_SIMPLEX, 0.5, color, 1,
    LINE_AA)].  They are OpenCV's, not the server's: each may raise, and
    the two that draw give the array as they leave it. *)
Record Cv2 : Type := {
  rectangle : ndarray -> Z * Z -> Z * Z -> Z * Z * Z -> Z -> outcome ndarray;
  getTextSize : string -> outcome (Z * Z);
  putText : ndarray -> string -> Z * Z -> Z * Z * Z -> outcome ndarray
}.

(** Work on an array that is changed in place: from the array as it is
    found to the array as it is left, with the result or the exception
    raised.  What was drawn before an exception stays drawn. *)
Definition inplace (A : Type) : Type := ndarray -> ndarray * outcome A.

#[global] Instance inplace_ret : MRet inplace := fun A a img => (img, Returns a).
#[global] Instance inplace_bind : MBind inplace := fun A B k m img =>
  match m img with
  | (img', Returns a) => k a img'
  | (img', Raises e) => (img', Raises e)
  end.

(** A call that draws on the array. *)
Definition draws (call : ndarray -> outcome ndarray) : inplace unit := fun img =>
  match call img with
  | Returns img' => (img', Returns tt)
  | Raises e => (img, Raises e)
  end.

(** A step that does not touch the array. *)
Definition leaves {A : Type} (step : outcome A) : inplace A := fun img => (img, step).

(** The body of the loop of [draw_detections]: the box is drawn in the
    colour of its class, then the label is made and drawn. *)
Definition draw_detection (cv2 : Cv2) (box : Box) : inplace unit :=
  let '(x1, y1, x2, y2) := xyxy box in
  let '(x1, y1, x2, y2) := (Py.int x1, Py.int y1, Py.int x2, Py.int y2) in
  let class_id := cls box in
  let conf := conf box in
  let color := Py.get CLASS_COLORS class_id (255, 255, 255)%Z in
  _ ← draws (fun img => rectangle cv2 img (x1, y1) (x2, y2) color 2);
  name ← leaves (Py.subscript CLASS_NAMES class_id);
  let label := name +:+ " " +:+ Py.format_2f conf in
  size ← leaves (getTextSize cv2 label);
  let '(label_width, label_height) := size in
  _ ← draws (fun img => rectangle cv2 img (x1, y1 - label_height - 10)%Z
                                         (x1 + label_width, y1)%Z color (-1));
  draws (fun img => putText cv2 img label (x1, y1 - 5)%Z (255, 255, 255)%Z).

(** The loop of [draw_detections] on the working copy. *)
Fixpoint draw_detections_loop (cv2 : Cv2) (boxes : list Box) : inplace unit :=
  match boxes with
  | [] => mret tt
  | box :: rest => _ ← draw_detection cv2 box; draw_detections_loop cv2 rest
  end.

(** [draw_detections]: the loop runs on a copy of [image], which is
    returned when no call raised. *)
Definition draw_detections (cv2 : Cv2) (image : ndarray) (boxes : list Box)
  : outcome ndarray :=
  let img := image in
  match draw_detections_loop cv2 boxes img with
  | (img, Returns _) => Returns img
  | (_, Raises e) => Raises e
  end.

(** ** The endpoints *)

(** An uploaded file ([content_type] may be [None]). *)
Record UploadFile : Type := {
  filename : string;
  content_type : option string;
  contents : string
}.

(** What the server gets back for one image: its size and
    [results[0].boxes]. *)
Record Inference : Type := {
  img_width : Z;
  img_height : Z;
  boxes : list Box
}.

(** The JSON answer of [/detect]. *)
Record DetectResponse : Type := {
  success : bool;
  image_info : string * Z * Z;
  detections : list Detection;
  statistics : Statistics;
  parameters : Q * Q
}.

(** The JSON answer of [/detect-with-image]; [v_annotated_image] is the
    data URL of the annotated image, when there is one. *)
Record VisualResponse : Type := {
  v_success : bool;
  v_detections : list Detection;
  v_statistics : Statistics;
  v_annotated_image : option string
}.

(** [/batch-detect]: the statistics of one image, one entry of [results]
    (a success entry has statistics, a failure entry an error), and the
    answer. *)
Record BatchStatistics : Type := {
  b_total : nat;
  b_good : nat;
  b_bad : nat;
  b_impurity : nat;
  b_quality_percentage : Q
}.

Record BatchResult : Type := {
  r_filename : string;
  r_success : bool;
  r_statistics : option BatchStatistics;
  r_error : option string
}.

Record BatchResponse : Type := {
  batch_success : bool;
  processed : nat;
  results : list BatchResult
}.

Section Endpoints.

(** [run_model file conf iou], for [detect_grains] and [batch_detect]:
    [await file.read()], [Image.open], the conversion to RGB and
    [model.predict(source=image, conf=conf, iou=iou)] ([iou] is [None]
    for [batch_detect], whose call does not pass it).  Any of them may
    raise. *)
Variable run_model : UploadFile -> Q -> option Q -> outcome Inference.

(** [run_model_array file conf iou], for [detect_with_visualization]:
    [await file.read()], [Image.open], the conversion to RGB,
    [np.array(image)] and [model.predict(source=img_array, conf=conf,
    iou=iou)], giving [img_array] and the inference.  Any of them may
    raise. *)
Variable run_model_array : UploadFile -> Q -> Q -> outcome (ndarray * Inference).

(** OpenCV. *)
Variable cv2 : Cv2.

(** [encode_jpeg annotated_array]: [Image.fromarray], the save as JPEG
    with quality 90 into a buffer, and [base64.b64encode(...).decode()].
    Any of them may raise. *)
Variable encode_jpeg : ndarray -> outcome string.

(** [str(e)] of an [HTTPException], which the framework defines. *)
Variable str_HTTPException : Z -> string -> string.

(** [str(e)]. *)
Definition str (e : Exception) : string :=
  match e with
  | KeyError key => pretty key
  | AttributeError msg => msg
  | HTTPException status_code detail => str_HTTPException status_code detail
  | Raised msg => msg
  end.

(** [file.content_type.startswith('image/')]. *)
Definition is_image (file : UploadFile) : outcome bool :=
  match content_type file with
  | Some ct => Returns (String.prefix "image/" ct)
  | None =>
      Raises (AttributeError "'NoneType' object has no attribute 'startswith'")
  end.

(** The loop of [detect_grains] that fills [detections]. *)
Definition detect_grains_loop (boxes : list Box) : list Detection :=
  fold_left
    (fun detections '(idx, box) => detections ++ [detect_grains_detection idx box])
    (Py.enumerate boxes) [].

(** The [try] block of [detect_grains]. *)
Definition detect_grains_try (file : UploadFile) (confidence iou : Q)
  : outcome DetectResponse :=
  image ← is_image file;
  _ ← (if negb image
       then Raises (HTTPException 400 "Файл должен быть изображением (JPEG, PNG)")
       else Returns tt);
  inference ← run_model file confidence (Some iou);
  let detections := detect_grains_loop (boxes inference) in
  let statistics := statistics_of detections in
  Returns {| success := true;
             image_info := (filename file, img_width inference, img_height inference);
             detections := detections;
             statistics := statistics;
             parameters := (confidence, iou) |}.

(** [detect_grains]: every exception of the block becomes status 500. *)
Definition detect_grains (file : UploadFile) (confidence iou : Q)
  : outcome DetectResponse :=
  match detect_grains_try file confidence iou with
  | Returns response => Returns response
  | Raises e => Raises (HTTPException 500 (str e))
  end.

(** The [try] block of [detect_with_visualization]. *)
Definition detect_with_visualization_try
    (file : UploadFile) (confidence iou : Q) (return_image : bool)
  : outcome VisualResponse :=
  read ← run_model_array file confidence iou;
  let '(img_array, inference) := read in
  detections ← mapM (fun '(idx, box) => detect_with_visualization_detection idx box)
                    (Py.enumerate (boxes inference));
  let statistics := statistics_of detections in
  img_base64 ←
    (if return_image
     then annotated_array ← draw_detections cv2 img_array (boxes inference);
          img_base64 ← encode_jpeg annotated_array;
          Returns (Some img_base64)
     else Returns None);
  Returns {| v_success := true;
             v_detections := detections;
             v_statistics := statistics;
             v_annotated_image :=
               (fun img_base64 => "data:image/jpeg;base64," +:+ img_base64)
                 <$> img_base64 |}.

(** [detect_with_visualization]. *)
Definition detect_with_visualization
    (file : UploadFile) (confidence iou : Q) (return_image : bool)
  : outcome VisualResponse :=
  match detect_with_visualization_try file confidence iou return_image with
  | Returns response => Returns response
  | Raises e => Raises (HTTPException 500 (str e))
  end.

(** [sum(1 for box in detections if int(box.cls[0]) == k)]. *)
Definition cls_count (k : Z) (detections : list Box) : nat :=
  Py.sum ((fun _ => 1) <$> filter (fun box => cls box = k) detections).

(** The [try] block of one iteration of [batch_detect]; it ends by
    appending the entry it returns here. *)
Definition batch_detect_try (file : UploadFile) (confidence : Q)
  : outcome BatchResult :=
  inference ← run_model file confidence None;
  let detections := boxes inference in
  let good := cls_count 0 detections in
  let bad := cls_count 1 detections in
  let impurity := cls_count 2 detections in
  let total := length detections in
  Returns {| r_filename := filename file;
             r_success := true;
             r_statistics :=
               Some {| b_total := total;
                       b_good := good;
                       b_bad := bad;
                       b_impurity := impurity;
                       b_quality_percentage := Py.round (quality_of good total) 2 |};
             r_error := None |}.

(** The entry appended by the [except] branch. *)
Definition batch_detect_except (file : UploadFile) (e : Exception) : BatchResult :=
  {| r_filename := filename file;
     r_success := false;
     r_statistics := None;
     r_error := Some (str e) |}.

(** One iteration of the loop of [batch_detect] on the list [results]. *)
Definition batch_detect_iteration (confidence : Q)
    (results : list BatchResult) (file : UploadFile) : list BatchResult :=
  match batch_detect_try file confidence with
  | Returns entry => results ++ [entry]
  | Raises e => results ++ [batch_detect_except file e]
  end.

(** [batch_detect]. *)
Definition batch_detect (files : list UploadFile) (confidence : Q) : BatchResponse :=
  {| batch_success := true;
     processed := length files;
     results := fold_left (batch_detect_iteration confidence) files [] |}.

End Endpoints.

(** ** The loss formulas of the module docstring *)

Module LossFormula.

(** Step 1, [W_photo = (N * W1000) / 1000]: grams on the photo. *)
Definition W_photo (N : Z) (W1000 : Q) : Q :=
  (inject_Z N * W1000 / 1000)%Q.

(** Step 2, [density = W_photo / S]: grams per square metre. *)
Definition density (N : Z) (W1000 S : Q) : Q :=
  (W_photo N W1000 / S)%Q.

(** Step 3, [loss = (density * 10000) / 1000]: kilograms per hectare. *)
Definition loss_by_steps (N : Z) (W1000 S : Q) : Q :=
  (density N W1000 S * 10000 / 1000)%Q.

(** The formula at the head of the docstring,
    [(N * W1000 / 1000) / S * 10000 / 1000]. *)
Definition loss_headline (N : Z) (W1000 S : Q) : Q :=
  ((inject_Z N * W1000 / 1000) / S * 10000 / 1000)%Q.

(** The line given as the simplified formula, [N * W1000 * 10 / S]. *)
Definition loss_one_line (N : Z) (W1000 S : Q) : Q :=
  (inject_Z N * W1000 * 10 / S)%Q.

End LossFormula.

(** ** The Loss Estimator *)

Module LossEstimator.

Inductive Error : Type := InvalidParameter.

(** Modelled from the spec: the Loss Estimator (section 4.4).  The
    server has no function that computes the loss, only the formulas of
    its docstring; the validation and the use of the one-line formula
    follow the spec. *)
Definition loss (N : Z) (W1000 S : Q) : Error + Q :=
  if Qle_bool S 0 || (N <? 0)%Z || negb (Qle_bool 0 W1000)
  then inl InvalidParameter
  else inr (inject_Z N * W1000 * 10 / S)%Q.

End LossEstimator.

(** ** Vocabulary of the statements *)

(** The class indices of the vocabulary. *)
Definition known_class (class_id : Z) : Prop :=
  class_id = 0%Z \/ class_id = 1%Z \/ class_id = 2%Z.

(** The labels the statistics count. *)
Definition named_class (name : string) : Prop :=
  name = "good" \/ name = "bad" \/ name = "impurity".

(** The five labels, in the words of the source. *)
Definition grade_A : string := "Отлично (A)".
Definition grade_B : string := "Хорошо (B)".
Definition grade_C : string := "Удовлетворительно (C)".
Definition grade_D : string := "Плохо (D)".
Definition grade_F : string := "Очень плохо (F)".

(** The three counters of a statistics block, added up. *)
Definition named_total (s : Statistics) : nat :=
  good s + bad s + impurity s.

(** The entry one file ends up with in [batch_detect]: the one of its
    [try] block, or the one of its [except] branch. *)
Definition batch_entry
    (run_model : UploadFile -> Q -> option Q -> outcome Inference)
    (str_HTTPException : Z -> string -> string)
    (confidence : Q) (file : UploadFile) : BatchResult :=
  match batch_detect_try run_model file confidence with
  | Returns entry => entry
  | Raises e => batch_detect_except str_HTTPException file e
  end.

(** A detection of [/detect] with the bbox cut down to its four corner
    entries, as [/detect-with-image] builds it. *)
Definition corners_only (d : Detection) : Detection :=
  {| d_id := d_id d;
     d_class := d_class d;
     d_class_id := d_class_id d;
     d_confidence := d_confidence d;
     d_bbox := take 4 (d_bbox d) |}.

(** [bbox[key]] on a bbox object. *)
Fixpoint entry (key : string) (bbox : list (string * Q)) : option Q :=
  match bbox with
  | [] => None
  | (k, v) :: rest => if String.eqb k key then Some v else entry key rest
  end.

(** [good] out of [total] reaches [threshold] percent. *)
Definition reaches (threshold good total : nat) : Prop :=
  0 < total /\ threshold * total <= 100 * good.

(** The statistics [s] around the threshold [t], whose grade is [at_t]
    and below which the grade is [below_t]; [p] is the unrounded
    percentage.  With [p] less than 0.005 below [t], the percentage
    reported is [t], which the grader would grade [at_t], and the grade
    is [below_t]; with [p] further below, the percentage reported is
    below [t]; with [p] at [t] or above, so is the percentage
    reported. *)
Definition lags_at (t : Z) (at_t below_t : string) (s : Statistics) : Prop :=
  let p := quality_of (good s) (total_grains s) in
  ((inject_Z t - (1 # 200) < p < inject_Z t)%Q ->
   (quality_percentage s == inject_Z t)%Q /\
   get_quality_grade (quality_percentage s) = at_t /\
   quality_grade s = below_t) /\
  ((p < inject_Z t - (1 # 200))%Q -> (quality_percentage s < inject_Z t)%Q) /\
  ((inject_Z t <= p)%Q -> (inject_Z t <= quality_percentage s)%Q).

(** The fallback colour of [draw_detections]. *)
Definition white : Z * Z * Z := (255, 255, 255)%Z.

(** The corners of a box as [draw_detections] passes them to OpenCV,
    [box.xyxy[0]...astype(int)]. *)
Definition corners (box : Box) : (Z * Z) * (Z * Z) :=
  let '(x1, y1, x2, y2) := xyxy box in
  ((Py.int x1, Py.int y1), (Py.int x2, Py.int y2)).

(** No call of this OpenCV raises. *)
Definition cv2_returns (cv2 : Cv2) : Prop :=
  (forall img pt1 pt2 color thickness,
     exists img', rectangle cv2 img pt1 pt2 color thickness = Returns img') /\
  (forall text, exists size, getTextSize cv2 text = Returns size) /\
  (forall img text org color,
     exists img', putText cv2 img text org color = Returns img').

(** The part of the [try] block of [detect_with_visualization] that makes
    the image: [None] without [return_image], else the base64 text. *)
Definition annotate (cv2 : Cv2) (encode_jpeg : ndarray -> outcome string)
    (img_array : ndarray) (found : list Box) (return_image : bool)
  : outcome (option string) :=
  if return_image
  then annotated_array ← draw_detections cv2 img_array found;
       img_base64 ← encode_jpeg annotated_array;
       Returns (Some img_base64)
  else Returns None.

(** The data URL made of a base64 text. *)
Definition data_url (img_base64 : string) : string :=
  "data:image/jpeg;base64," +:+ img_base64.

(** The statistics of [/detect], as a [/batch-detect] entry carries
    them. *)
Definition as_batch_statistics (s : Statistics) : BatchStatistics :=
  {| b_total := total_grains s;
     b_good := good s;
     b_bad := bad s;
     b_impurity := impurity s;
     b_quality_percentage := quality_percentage s |}.

(** The message of the [HTTPException] raised on a file that is not an
    image. *)
Definition not_an_image : string := "Файл должен быть изображением (JPEG, PNG)".

(** ** Inputs used in the examples *)

Definition text_file (name : string) : UploadFile :=
  {| filename := name; content_type := Some "text/plain"; contents := "hello" |}.

Definition box_of_class (class_id : Z) : Box :=
  {| xyxy := (0, 0, 10, 10)%Q; cls := class_id; conf := (9 # 10)%Q |}.

Definition image_file (name : string) : UploadFile :=
  {| filename := name; content_type := Some "image/jpeg"; contents := "" |}.

(** A model that finds the given boxes in every image. *)
Definition model_finding (found : list Box)
    (file : UploadFile) (confidence : Q) (iou : option Q) : outcome Inference :=
  Returns {| img_width := 640; img_height := 640; boxes := found |}.

(** A model answer with a single box of class index 5. *)
Definition one_unknown_box : UploadFile -> Q -> option Q -> outcome Inference :=
  model_finding [box_of_class 5].

(** The same for [/detect-with-image]: the given array and boxes, for
    every image. *)
Definition array_model_finding (img_array : ndarray) (found : list Box)
    (file : UploadFile) (confidence iou : Q) : outcome (ndarray * Inference) :=
  Returns (img_array, {| img_width := 640; img_height := 640; boxes := found |}).

Definition one_unknown_array (img_array : ndarray)
  : UploadFile -> Q -> Q -> outcome (ndarray * Inference) :=
  array_model_finding img_array [box_of_class 5].

(** An empty array, an OpenCV whose calls all return, leaving the array
    as it is, and an encoder that returns. *)
Definition no_pixels : ndarray := {| shape := (0, 0, 3)%Z; data := [] |}.

Definition cv2_quiet : Cv2 :=
  {| rectangle := fun img _ _ _ _ => Returns img;
     getTextSize := fun text => Returns (Z.of_nat (String.length text) * 10, 12)%Z;
     putText := fun img _ _ _ => Returns img |}.

Definition encode_quiet (img : ndarray) : outcome string := Returns "AAAA".

(** An encoder that refuses every array, as the JPEG writer does for
    one that is too large. *)
Definition encode_refusing (img : ndarray) : outcome string :=
  Raises (Raised "Maximum supported image dimension is 65500 pixels").

(** An OpenCV that keeps a record of the colours of the rectangles it is
    asked for, in [data], newest first. *)
Definition cv2_recording : Cv2 :=
  {| rectangle := fun img _ _ '(r, g, b) _ =>
       Returns {| shape := shape img; data := r :: g :: b :: data img |};
     getTextSize := fun text => Returns (Z.of_nat (String.length text) * 10, 12)%Z;
     putText := fun img _ _ _ => Returns img |}.

(** 1019 boxes, 968 of them good: 94.995...% good. *)
Definition near_threshold_boxes : list Box :=
  replicate 968 (box_of_class 0) ++ replicate 51 (box_of_class 1).

(** A pipeline that cannot decode an upload with empty contents and finds
    one good and one bad grain in any other. *)
Definition model_rejecting_empty
    (file : UploadFile) (confidence : Q) (iou : option Q) : outcome Inference :=
  if decide (contents file = "")
  then Raises (Raised "cannot identify image file")
  else Returns {| img_width := 640; img_height := 640;
                  boxes := [box_of_class 0; box_of_class 1] |}.

Definition photo (name : string) : UploadFile :=
  {| filename := name; content_type := Some "image/png"; contents := "PNG" |}.

(** [str(e)] of an [HTTPException] as [status: detail]. *)
Definition status_and_detail (status_code : Z) (detail : string) : string :=
  pretty status_code +:+ ": " +:+ detail.

(** ** Tactics *)

(** Splits on every threshold test left in the goal, turning each test
    into the inequality it decides. *)
Ltac threshold_cases :=
  repeat match goal with
  | |- context [Qle_bool ?a ?b] =>
      let E := fresh "E" in
      destruct (Qle_bool a b) eqn:E;
      [ apply Qle_bool_iff in E
      | apply not_true_iff_false in E; rewrite Qle_bool_iff in E;
        apply Qnot_le_lt in E ]
  end.

(** Settles, for the percentage [p], on which side of each threshold it
    lies, from the bounds in the context. *)
Ltac settle_thresholds p :=
  let side t :=
    first [ assert (t <= p)%Q by lra | assert (~ (t <= p)%Q) by lra ] in
  side 95%Q; side 85%Q; side 75%Q; side 60%Q.

(** * Properties *)

(** ** Python helpers *)

Lemma sum_ones_from {A : Type} (xs : list A) (n : nat) :
  fold_left Nat.add ((fun _ => 1) <$> xs) n = n + length xs.
Proof.
  revert n. induction xs as [|x xs IH]; intros n; simpl.
  - lia.
  - rewrite IH. lia.
Qed.

Lemma sum_ones {A : Type} (xs : list A) :
  Py.sum ((fun _ => 1) <$> xs) = length xs.
Proof. unfold Py.sum. rewrite sum_ones_from. reflexivity. Qed.

(** ** The class vocabulary *)

Lemma CLASS_NAMES_unknown (class_id : Z) :
  ~ known_class class_id -> CLASS_NAMES !! class_id = None.
Proof.
  unfold known_class, CLASS_NAMES. intros H.
  rewrite !lookup_insert_ne by (intros ?; subst; tauto).
  apply lookup_empty.
Qed.

Lemma CLASS_NAMES_known (class_id : Z) :
  known_class class_id ->
  CLASS_NAMES !! class_id = Some "good" /\ class_id = 0%Z \/
  CLASS_NAMES !! class_id = Some "bad" /\ class_id = 1%Z \/
  CLASS_NAMES !! class_id = Some "impurity" /\ class_id = 2%Z.
Proof.
  intros [-> | [-> | ->]]; [left | right; left | right; right];
    split; reflexivity.
Qed.

(** [/detect] labels every box: the vocabulary entry for 0, 1 and 2, and
    ["unknown_<id>"] for any other class index. *)
Lemma detect_grains_detection_class (idx : nat) (box : Box) :
  (cls box = 0%Z -> d_class (detect_grains_detection idx box) = "good") /\
  (cls box = 1%Z -> d_class (detect_grains_detection idx box) = "bad") /\
  (cls box = 2%Z -> d_class (detect_grains_detection idx box) = "impurity") /\
  (~ known_class (cls box) ->
   d_class (detect_grains_detection idx box) = "unknown_" +:+ pretty (cls box)).
Proof.
  unfold detect_grains_detection, Py.get.
  destruct (xyxy box) as [[[x1 y1] x2] y2]; simpl.
  repeat split; intros H.
  - rewrite H. reflexivity.
  - rewrite H. reflexivity.
  - rewrite H. reflexivity.
  - rewrite (CLASS_NAMES_unknown _ H). reflexivity.
Qed.

(** [/detect-with-image] raises [KeyError] on a box of unknown class. *)
Lemma detect_with_visualization_detection_unknown (idx : nat) (box : Box) :
  ~ known_class (cls box) ->
  detect_with_visualization_detection idx box = Raises (KeyError (cls box)).
Proof.
  intros H. unfold detect_with_visualization_detection, Py.subscript.
  destruct (xyxy box) as [[[x1 y1] x2] y2].
  rewrite (CLASS_NAMES_unknown _ H). reflexivity.
Qed.

(** C3 (the code departs from the claim). On a model answer holding one
    box of class index 5, [/detect] answers with the label ["unknown_5"],
    while [/detect-with-image] fails with status 500: its
    [CLASS_NAMES[class_id]] raises [KeyError], with or without the
    annotated image. *)
Theorem unknown_class_breaks_detect_with_visualization
    (cv2 : Cv2) (encode_jpeg : ndarray -> outcome string) (img_array : ndarray)
    (str_HTTPException : Z -> string -> string)
    (name : string) (confidence iou : Q) (return_image : bool) :
  (exists response,
     detect_grains one_unknown_box str_HTTPException (image_file name) confidence iou
       = Returns response /\
     d_class <$> detections response = ["unknown_5"]) /\
  detect_with_visualization (one_unknown_array img_array) cv2 encode_jpeg
      str_HTTPException (image_file name) confidence iou return_image
    = Raises (HTTPException 500 "5").
Proof.
  split.
  - eexists. split; reflexivity.
  - reflexivity.
Qed.

(** Whatever the model answers, a box of unknown class makes
    [/detect-with-image] fail with status 500. *)
Lemma mapM_detection_unknown (boxes : list Box) (start : nat) :
  Exists (fun box => ~ known_class (cls box)) boxes ->
  exists key, ~ known_class key /\
    mapM (fun '(idx, box) => detect_with_visualization_detection idx box)
         (zip (seq start (length boxes)) boxes) = Raises (KeyError key).
Proof.
  revert start. induction boxes as [|box boxes IH]; intros start Hex.
  - inversion Hex.
  - simpl.
    destruct (decide (known_class (cls box))) as [Hk | Hk].
    + assert (Hrest : Exists (fun box => ~ known_class (cls box)) boxes).
      { inversion Hex; subst; [contradiction | assumption]. }
      destruct (IH (S start) Hrest) as (key & Hkey & Hraise).
      exists key. split; [assumption |].
      rewrite Hraise.
      unfold detect_with_visualization_detection, Py.subscript.
      destruct (xyxy box) as [[[x1 y1] x2] y2].
      destruct (CLASS_NAMES_known _ Hk) as [[-> _] | [[-> _] | [-> _]]];
        reflexivity.
    + exists (cls box). split; [assumption |].
      rewrite (detect_with_visualization_detection_unknown _ _ Hk).
      reflexivity.
Qed.

Lemma detect_with_visualization_unknown
    (run_model_array : UploadFile -> Q -> Q -> outcome (ndarray * Inference))
    (cv2 : Cv2) (encode_jpeg : ndarray -> outcome string)
    (str_HTTPException : Z -> string -> string)
    (file : UploadFile) (confidence iou : Q) (return_image : bool)
    (img_array : ndarray) (inference : Inference) :
  run_model_array file confidence iou = Returns (img_array, inference) ->
  Exists (fun box => ~ known_class (cls box)) (boxes inference) ->
  exists key, ~ known_class key /\
    detect_with_visualization run_model_array cv2 encode_jpeg str_HTTPException
        file confidence iou return_image
      = Raises (HTTPException 500 (pretty key)).
Proof.
  intros Hrun Hex.
  destruct (mapM_detection_unknown _ 0 Hex) as (key & Hkey & Hraise).
  exists key. split; [assumption |].
  unfold detect_with_visualization, detect_with_visualization_try.
  rewrite Hrun. simpl. unfold Py.enumerate. rewrite Hraise. reflexivity.
Qed.

(** The loop of [/detect] makes one detection per box, in order, numbered
    from 0. *)
Lemma detect_grains_loop_from (boxes : list Box) (start : nat) (acc : list Detection) :
  fold_left
    (fun detections '(idx, box) => detections ++ [detect_grains_detection idx box])
    (zip (seq start (length boxes)) boxes) acc
  = acc ++ imap (fun i => detect_grains_detection (start + i)) boxes.
Proof.
  revert start acc. induction boxes as [|box boxes IH]; intros start acc; simpl.
  - rewrite app_nil_r. reflexivity.
  - rewrite IH, <- app_assoc. simpl. rewrite Nat.add_0_r.
    do 2 f_equal. apply imap_ext. intros i b _. simpl.
    f_equal. lia.
Qed.

Lemma detect_grains_loop_imap (boxes : list Box) :
  detect_grains_loop boxes = imap detect_grains_detection boxes.
Proof.
  unfold detect_grains_loop, Py.enumerate.
  rewrite detect_grains_loop_from. reflexivity.
Qed.

Lemma detect_grains_loop_length (boxes : list Box) :
  length (detect_grains_loop boxes) = length boxes.
Proof. rewrite detect_grains_loop_imap. apply length_imap. Qed.

(** ** The grader *)

Lemma get_quality_grade_cases (p : Q) :
  (95 <= p)%Q /\ get_quality_grade p = grade_A \/
  (85 <= p < 95)%Q /\ get_quality_grade p = grade_B \/
  (75 <= p < 85)%Q /\ get_quality_grade p = grade_C \/
  (60 <= p < 75)%Q /\ get_quality_grade p = grade_D \/
  (p < 60)%Q /\ get_quality_grade p = grade_F.
Proof.
  unfold get_quality_grade. threshold_cases; auto 10.
Qed.

(** C4 (as amended). The grader is total: every rational percentage falls
    in exactly one of five ranges, and the label returned is the source's
    own one for that range, with each threshold in the higher grade. *)
Theorem get_quality_grade_ladder (p : Q) :
  ((95 <= p)%Q -> get_quality_grade p = "Отлично (A)") /\
  ((85 <= p < 95)%Q -> get_quality_grade p = "Хорошо (B)") /\
  ((75 <= p < 85)%Q -> get_quality_grade p = "Удовлетворительно (C)") /\
  ((60 <= p < 75)%Q -> get_quality_grade p = "Плохо (D)") /\
  ((p < 60)%Q -> get_quality_grade p = "Очень плохо (F)").
Proof.
  destruct (get_quality_grade_cases p)
    as [[H ->] | [[H ->] | [[H ->] | [[H ->] | [H ->]]]]];
    repeat split; intros H'; solve [reflexivity | lra].
Qed.

Lemma get_quality_grade_ladder_witness :
  (85 <= 90 < 95)%Q /\ get_quality_grade 90 = "Хорошо (B)".
Proof.
  assert (H : (85 <= 90 < 95)%Q) by (split; [discriminate | reflexivity]).
  split; [exact H |].
  apply (proj1 (proj2 (get_quality_grade_ladder 90))). exact H.
Defined.

(** C4 (as stated) fails: at 95 the grader does not return the English
    text the claim gives. *)
Lemma get_quality_grade_not_english :
  get_quality_grade 95 <> "Excellent (A)".
Proof. discriminate. Qed.

(** C8. The grader is monotonic: a lower percentage never gets a better
    grade, the grades being ranked F < D < C < B < A. *)
Theorem get_quality_grade_monotone (p1 p2 : Q) :
  (p1 <= p2)%Q ->
  exists r1 r2,
    grade_rank (get_quality_grade p1) = Some r1 /\
    grade_rank (get_quality_grade p2) = Some r2 /\
    r1 <= r2.
Proof.
  intros Hle.
  destruct (get_quality_grade_cases p1)
    as [[H1 ->] | [[H1 ->] | [[H1 ->] | [[H1 ->] | [H1 ->]]]]];
  destruct (get_quality_grade_cases p2)
    as [[H2 ->] | [[H2 ->] | [[H2 ->] | [[H2 ->] | [H2 ->]]]]];
  try (exfalso; lra);
  eexists; eexists; (split; [reflexivity | split; [reflexivity | lia]]).
Qed.

Lemma get_quality_grade_monotone_witness :
  (70 <= 90)%Q /\
  exists r1 r2,
    grade_rank (get_quality_grade 70) = Some r1 /\
    grade_rank (get_quality_grade 90) = Some r2 /\
    r1 <= r2.
Proof.
  assert (H : (70 <= 90)%Q) by discriminate.
  split; [exact H |].
  apply (get_quality_grade_monotone 70 90 H).
Defined.

(** ** Statistics *)

Lemma class_count_length (name : string) (detections : list Detection) :
  class_count name detections
  = length (filter (fun d => d_class d = name) detections).
Proof. unfold class_count. apply sum_ones. Qed.

Lemma class_count_cons (name : string) (d : Detection) (detections : list Detection) :
  class_count name (d :: detections)
  = (if decide (d_class d = name) then 1 else 0) + class_count name detections.
Proof.
  rewrite !class_count_length, filter_cons.
  destruct (decide (d_class d = name)); reflexivity.
Qed.

Lemma class_count_Permutation (name : string) (ds ds' : list Detection) :
  ds ≡ₚ ds' -> class_count name ds = class_count name ds'.
Proof.
  intros Hperm. rewrite !class_count_length, Hperm. reflexivity.
Qed.

(** A detection of a label that is not counted adds one to the total and
    nothing to the three counters; one of a counted label adds one to
    both. *)
Lemma named_total_cons (d : Detection) (detections : list Detection) :
  named_total (statistics_of (d :: detections))
  = (if decide (named_class (d_class d)) then 1 else 0)
    + named_total (statistics_of detections).
Proof.
  unfold named_total, statistics_of, named_class; simpl.
  rewrite !class_count_cons.
  destruct (decide (d_class d = "good")) as [Hg | Hg];
  destruct (decide (d_class d = "bad")) as [Hb | Hb];
  destruct (decide (d_class d = "impurity")) as [Hi | Hi];
  destruct (decide _) as [Hn | Hn];
  try congruence; try tauto; lia.
Qed.

Lemma named_total_le (detections : list Detection) :
  named_total (statistics_of detections) <= length detections.
Proof.
  induction detections as [|d detections IH].
  - reflexivity.
  - rewrite named_total_cons. simpl.
    destruct (decide _); lia.
Qed.

(** C6. The three counters add up to at most [total_grains], and to
    exactly [total_grains] if and only if every detection carries one of
    the labels good, bad, impurity; a detection with any other label
    raises [total_grains] by one and leaves the three counters as they
    were. *)
Theorem counts_within_total (detections : list Detection) :
  let s := statistics_of detections in
  good s + bad s + impurity s <= total_grains s /\
  (good s + bad s + impurity s = total_grains s
   <-> Forall (fun d => named_class (d_class d)) detections) /\
  (forall d, ~ named_class (d_class d) ->
     let s' := statistics_of (d :: detections) in
     total_grains s' = S (total_grains s) /\
     good s' = good s /\ bad s' = bad s /\ impurity s' = impurity s).
Proof.
  cbv zeta. fold (named_total (statistics_of detections)).
  split; [apply named_total_le |]. split.
  - replace (total_grains (statistics_of detections)) with (length detections)
      by reflexivity.
    induction detections as [|d detections IH].
    + split; [constructor | reflexivity].
    + rewrite named_total_cons. simpl.
      pose proof (named_total_le detections) as Hle.
      destruct (decide (named_class (d_class d))) as [Hn | Hn]; split.
      * intros H. constructor; [assumption |]. apply IH. lia.
      * intros H. inversion H; subst. f_equal. apply IH. assumption.
      * intros H. lia.
      * intros H. inversion H; subst. contradiction.
  - intros d Hd. unfold named_class in Hd. simpl.
    rewrite !class_count_cons.
    repeat destruct (decide _); try tauto; auto.
Qed.

Lemma counts_within_total_witness :
  ~ named_class "unknown_5" /\
  total_grains (statistics_of (detect_grains_loop [box_of_class 5; box_of_class 0]))
  = S (total_grains (statistics_of (detect_grains_loop [box_of_class 0]))).
Proof.
  assert (H : ~ named_class "unknown_5")
    by (unfold named_class; intros [H | [H | H]]; discriminate).
  split; [exact H |].
  exact (proj1 (proj2 (proj2
    (counts_within_total
       [detect_grains_detection 1 (box_of_class 0)]))
    (detect_grains_detection 0 (box_of_class 5)) H)).
Defined.

(** C7. The statistics do not depend on the order of the detections: a
    permutation of the list gives the same counts, percentage and
    grade. *)
Theorem statistics_of_Permutation (ds ds' : list Detection) :
  ds ≡ₚ ds' -> statistics_of ds = statistics_of ds'.
Proof.
  intros Hperm. unfold statistics_of.
  rewrite (class_count_Permutation "good" _ _ Hperm).
  rewrite (class_count_Permutation "bad" _ _ Hperm).
  rewrite (class_count_Permutation "impurity" _ _ Hperm).
  rewrite (Permutation_length Hperm).
  reflexivity.
Qed.

Lemma statistics_of_Permutation_witness :
  detect_grains_loop [box_of_class 0; box_of_class 1]
    ≡ₚ reverse (detect_grains_loop [box_of_class 0; box_of_class 1]) /\
  statistics_of (detect_grains_loop [box_of_class 0; box_of_class 1])
  = statistics_of (reverse (detect_grains_loop [box_of_class 0; box_of_class 1])).
Proof.
  assert (H : detect_grains_loop [box_of_class 0; box_of_class 1]
              ≡ₚ reverse (detect_grains_loop [box_of_class 0; box_of_class 1]))
    by (symmetry; apply reverse_Permutation).
  split; [exact H |].
  apply (statistics_of_Permutation _ _ H).
Defined.

(** C5 (as amended). With no detection the statistics are all zero, the
    percentage is 0 and the grade is the lowest one, in the source's
    words; [/detect] answers with them and does not fail. *)
Theorem empty_detection_statistics
    (str_HTTPException : Z -> string -> string)
    (name : string) (confidence iou : Q) :
  let s := statistics_of [] in
  total_grains s = 0 /\ good s = 0 /\ bad s = 0 /\ impurity s = 0 /\
  (quality_percentage s == 0)%Q /\
  quality_grade s = "Очень плохо (F)" /\
  exists response,
    detect_grains (model_finding []) str_HTTPException
        (image_file name) confidence iou = Returns response /\
    success response = true /\
    detections response = [] /\
    statistics response = s.
Proof.
  cbv zeta. repeat split.
  eexists. repeat split.
Qed.

(** C5 (as stated) fails: the grade of the empty list is not the English
    text the claim gives. *)
Lemma empty_detection_grade_not_english :
  quality_grade (statistics_of []) <> "Very Poor (F)".
Proof. discriminate. Qed.



(** ** The batch loop *)

Section Batch.

Variable run_model : UploadFile -> Q -> option Q -> outcome Inference.
Variable str_HTTPException : Z -> string -> string.
Variable confidence : Q.

Lemma batch_loop_from (files : list UploadFile) (acc : list BatchResult) :
  fold_left (batch_detect_iteration run_model str_HTTPException confidence) files acc
  = acc ++ (batch_entry run_model str_HTTPException confidence <$> files).
Proof.
  revert acc. induction files as [|file files IH]; intros acc; simpl.
  - rewrite app_nil_r. reflexivity.
  - rewrite IH. unfold batch_detect_iteration, batch_entry.
    destruct (batch_detect_try run_model file confidence);
      rewrite <- app_assoc; reflexivity.
Qed.

Lemma batch_detect_results (files : list UploadFile) :
  results (batch_detect run_model str_HTTPException files confidence)
  = batch_entry run_model str_HTTPException confidence <$> files.
Proof. unfold batch_detect. simpl. apply batch_loop_from. Qed.

End Batch.

(** C9. [/batch-detect] answers with one entry per file, in the order of
    the files.  The entry of a file whose processing raises has
    [success = false] and the message of the exception; the entry of a
    file whose processing returns has [success = true] and the statistics
    of its own boxes, whatever happens to the other files. *)
Theorem batch_detect_isolates_failures
    (run_model : UploadFile -> Q -> option Q -> outcome Inference)
    (str_HTTPException : Z -> string -> string)
    (files : list UploadFile) (confidence : Q) :
  let response := batch_detect run_model str_HTTPException files confidence in
  length (results response) = length files /\
  processed response = length files /\
  forall i file, files !! i = Some file ->
    exists entry,
      results response !! i = Some entry /\
      r_filename entry = filename file /\
      (forall e, run_model file confidence None = Raises e ->
         r_success entry = false /\
         r_error entry = Some (str str_HTTPException e) /\
         r_statistics entry = None) /\
      (forall inference, run_model file confidence None = Returns inference ->
         r_success entry = true /\
         r_error entry = None /\
         r_statistics entry =
           Some {| b_total := length (boxes inference);
                   b_good := cls_count 0 (boxes inference);
                   b_bad := cls_count 1 (boxes inference);
                   b_impurity := cls_count 2 (boxes inference);
                   b_quality_percentage :=
                     Py.round (quality_of (cls_count 0 (boxes inference))
                                          (length (boxes inference))) 2 |}).
Proof.
  cbv zeta. rewrite batch_detect_results.
  split; [apply length_fmap |]. split; [reflexivity |].
  intros i file Hfile.
  exists (batch_entry run_model str_HTTPException confidence file).
  split; [rewrite list_lookup_fmap, Hfile; reflexivity |].
  unfold batch_entry, batch_detect_try.
  destruct (run_model file confidence None) as [inference | e]; simpl.
  - split; [reflexivity |]. split.
    + intros e He. discriminate.
    + intros inference' Heq. injection Heq as <-. repeat split.
  - split; [reflexivity |]. split.
    + intros e' Heq. injection Heq as <-. repeat split.
    + intros inference He. discriminate.
Qed.

Lemma batch_detect_isolates_failures_witness :
  [photo "a.png"; image_file "b.jpg"; photo "c.png"] !! 1 = Some (image_file "b.jpg") /\
  exists entry,
    results (batch_detect model_rejecting_empty status_and_detail
               [photo "a.png"; image_file "b.jpg"; photo "c.png"] (1 # 4)) !! 1
      = Some entry /\
    r_success entry = false /\
    r_error entry = Some "cannot identify image file".
Proof.
  assert (H : [photo "a.png"; image_file "b.jpg"; photo "c.png"] !! 1
              = Some (image_file "b.jpg")) by reflexivity.
  split; [exact H |].
  destruct (proj2 (proj2 (batch_detect_isolates_failures
              model_rejecting_empty status_and_detail
              [photo "a.png"; image_file "b.jpg"; photo "c.png"] (1 # 4)))
            1 (image_file "b.jpg") H)
    as (entry & Hentry & _ & Hfail & _).
  exists entry. split; [exact Hentry |].
  destruct (Hfail (Raised "cannot identify image file") eq_refl) as (Hs & He & _).
  split; [exact Hs | exact He].
Defined.

(** ** The loss formulas *)

(** The one-line formula of the docstring is a thousand times its
    three-step calculation. *)
Lemma loss_one_line_by_steps (N : Z) (W1000 S : Q) :
  (LossFormula.loss_one_line N W1000 S
   == 1000 * LossFormula.loss_by_steps N W1000 S)%Q.
Proof.
  unfold LossFormula.loss_one_line, LossFormula.loss_by_steps,
    LossFormula.density, LossFormula.W_photo, Qdiv.
  change (/ 1000)%Q with (1 # 1000)%Q.
  ring.
Qed.

(** The formula at the head of the docstring is the three-step one. *)
Lemma loss_headline_by_steps (N : Z) (W1000 S : Q) :
  LossFormula.loss_headline N W1000 S = LossFormula.loss_by_steps N W1000 S.
Proof. reflexivity. Qed.

(** C2 (the code departs from the claim). On the docstring's own example,
    25 grains, 40 g per thousand, 0.1 square metre, the three steps give
    1 g, 10 g per square metre and 100 kg per hectare, and the one-line
    formula gives 100000. *)
Theorem docstring_loss_formulas_disagree :
  (LossFormula.W_photo 25 40 == 1)%Q /\
  (LossFormula.density 25 40 (1 # 10) == 10)%Q /\
  (LossFormula.loss_by_steps 25 40 (1 # 10) == 100)%Q /\
  (LossFormula.loss_one_line 25 40 (1 # 10) == 100000)%Q /\
  ~ (LossFormula.loss_by_steps 25 40 (1 # 10)
     == LossFormula.loss_one_line 25 40 (1 # 10))%Q.
Proof. repeat split. discriminate. Qed.

(** ** The Loss Estimator *)

(** C1. The Loss Estimator returns [N * W1000 * 10 / S] on every valid
    input, and fails with [InvalidParameter] exactly when [S <= 0],
    [N < 0] or [W1000 < 0]; it has no other result. *)
Theorem loss_estimator_contract (N : Z) (W1000 S : Q) :
  ((0 <= N)%Z -> (0 <= W1000)%Q -> (0 < S)%Q ->
   LossEstimator.loss N W1000 S = inr (inject_Z N * W1000 * 10 / S)%Q) /\
  (LossEstimator.loss N W1000 S = inl LossEstimator.InvalidParameter
   <-> (S <= 0)%Q \/ (N < 0)%Z \/ (W1000 < 0)%Q).
Proof.
  unfold LossEstimator.loss.
  destruct (Z.ltb_spec N 0) as [HN | HN]; threshold_cases; simpl; split;
    try (intros; exfalso; lra); try (intros; exfalso; lia);
    try (intros; reflexivity);
    try (split; [intros; tauto | intros; reflexivity]);
    split; try discriminate; intros [H | [H | H]]; exfalso; (lra || lia).
Qed.

Lemma loss_estimator_contract_witness :
  ((0 <= 25)%Z /\ (0 <= 40)%Q /\ (0 < 1 # 10)%Q) /\
  LossEstimator.loss 25 40 (1 # 10) = inr (inject_Z 25 * 40 * 10 / (1 # 10))%Q.
Proof.
  assert (HN : (0 <= 25)%Z) by lia.
  assert (HW : (0 <= 40)%Q) by discriminate.
  assert (HS : (0 < 1 # 10)%Q) by reflexivity.
  split; [auto |].
  exact (proj1 (loss_estimator_contract 25 40 (1 # 10)) HN HW HS).
Defined.

(** * Further properties of the server *)

(** ** Rounding *)

Lemma round_half_even_floor (q : Q) :
  (Qfloor q <= Py.round_half_even q <= Qfloor q + 1)%Z.
Proof.
  unfold Py.round_half_even.
  destruct (_ ?= _)%Q; [destruct (Z.even _) |..]; lia.
Qed.

Lemma round_half_even_error (q : Q) :
  (Qabs (inject_Z (Py.round_half_even q) - q) <= 1 # 2)%Q.
Proof.
  pose proof (Qfloor_le q) as Hlo.
  pose proof (Qlt_floor q) as Hhi.
  rewrite inject_Z_plus in Hhi. change (inject_Z 1) with 1%Q in Hhi.
  apply Qabs_Qle_condition.
  unfold Py.round_half_even. cbv zeta.
  destruct (_ ?= _)%Q eqn:Hc.
  - apply Qeq_alt in Hc.
    destruct (Z.even _); [| rewrite inject_Z_plus; change (inject_Z 1) with 1%Q];
      split; lra.
  - apply Qlt_alt in Hc. split; lra.
  - apply Qgt_alt in Hc. rewrite inject_Z_plus. change (inject_Z 1) with 1%Q.
    split; lra.
Qed.

Lemma round_half_even_between (a b : Z) (q : Q) :
  (inject_Z a <= q <= inject_Z b)%Q ->
  (a <= Py.round_half_even q <= b)%Z.
Proof.
  intros [Ha Hb].
  pose proof (round_half_even_floor q) as [Hf1 Hf2].
  assert (Hfa : (a <= Qfloor q)%Z).
  { rewrite <- (Qfloor_Z a). apply Qfloor_resp_le. exact Ha. }
  assert (Hfb : (Qfloor q <= b)%Z).
  { rewrite <- (Qfloor_Z b). apply Qfloor_resp_le. exact Hb. }
  split; [lia |].
  destruct (Z.eq_dec (Qfloor q) b) as [Heq | Hne]; [| lia].
  assert (Hq : (q == inject_Z (Qfloor q))%Q).
  { apply Qle_antisym; [rewrite Heq; exact Hb | apply Qfloor_le]. }
  unfold Py.round_half_even.
  assert (Hc : ((q - inject_Z (Qfloor q)) ?= (1 # 2))%Q = Lt).
  { apply (proj1 (Qlt_alt _ _)). lra. }
  rewrite Hc. lia.
Qed.

Lemma scale_pos (ndigits : nat) : (0 < inject_Z (10 ^ Z.of_nat ndigits))%Q.
Proof.
  change 0%Q with (inject_Z 0). rewrite <- Zlt_Qlt.
  apply Z.pow_pos_nonneg; lia.
Qed.

(** [round] keeps a value between two integers between them. *)
Lemma round_between (a b : Z) (q : Q) (ndigits : nat) :
  (inject_Z a <= q <= inject_Z b)%Q ->
  (inject_Z a <= Py.round q ndigits <= inject_Z b)%Q.
Proof.
  intros [Ha Hb]. unfold Py.round.
  pose proof (scale_pos ndigits) as Hs.
  set (scale := (10 ^ Z.of_nat ndigits)%Z) in *.
  assert (H : (a * scale <= Py.round_half_even (q * inject_Z scale) <= b * scale)%Z).
  { apply round_half_even_between. rewrite !inject_Z_mult. split.
    - apply Qmult_le_compat_r; [exact Ha | apply Qlt_le_weak; exact Hs].
    - apply Qmult_le_compat_r; [exact Hb | apply Qlt_le_weak; exact Hs]. }
  destruct H as [H1 H2].
  rewrite Zle_Qle, inject_Z_mult in H1.
  rewrite Zle_Qle, inject_Z_mult in H2.
  split.
  - apply Qle_shift_div_l; assumption.
  - apply Qle_shift_div_r; assumption.
Qed.

(** [round] moves a value by at most half a unit of the last digit. *)
Lemma round_error (q : Q) (ndigits : nat) :
  (Qabs (Py.round q ndigits - q)
   <= (1 # 2) / inject_Z (10 ^ Z.of_nat ndigits))%Q.
Proof.
  unfold Py.round.
  pose proof (scale_pos ndigits) as Hs.
  set (scale := inject_Z (10 ^ Z.of_nat ndigits)) in *.
  pose proof (round_half_even_error (q * scale)) as He.
  set (r := inject_Z (Py.round_half_even (q * scale))) in *.
  assert (Heq : (r / scale - q == (r - q * scale) / scale)%Q).
  { field. lra. }
  rewrite Heq. unfold Qdiv at 1. rewrite Qabs_Qmult.
  rewrite (Qabs_pos (/ scale)) by (apply Qlt_le_weak, Qinv_lt_0_compat; exact Hs).
  apply Qmult_le_compat_r; [exact He |].
  apply Qlt_le_weak, Qinv_lt_0_compat; exact Hs.
Qed.

(** ** The reported percentage *)

Lemma class_count_le (name : string) (detections : list Detection) :
  class_count name detections <= length detections.
Proof. rewrite class_count_length. apply length_filter. Qed.

Lemma inject_nat_pos (n : nat) : 0 < n -> (0 < inject_Z (Z.of_nat n))%Q.
Proof.
  intros Hn. change 0%Q with (inject_Z 0). rewrite <- Zlt_Qlt. lia.
Qed.

Lemma ratio_percent_alt (g n : nat) :
  0 < n ->
  (Py.ratio_percent g n
   == inject_Z (Z.of_nat (100 * g)) / inject_Z (Z.of_nat n))%Q.
Proof.
  intros Hn. pose proof (inject_nat_pos n Hn) as Hpos.
  unfold Py.ratio_percent.
  rewrite Nat2Z.inj_mul, inject_Z_mult.
  change (inject_Z (Z.of_nat 100)) with 100%Q.
  field. lra.
Qed.

Lemma quality_of_between (g n : nat) :
  g <= n -> (0 <= quality_of g n <= 100)%Q.
Proof.
  intros Hle. unfold quality_of.
  destruct (Nat.ltb_spec 0 n) as [Hn | Hn]; [| split; discriminate].
  pose proof (inject_nat_pos n Hn) as Hpos.
  rewrite (ratio_percent_alt g n Hn). split.
  - apply Qle_shift_div_l; [exact Hpos |].
    rewrite Qmult_0_l. change 0%Q with (inject_Z 0). rewrite <- Zle_Qle. lia.
  - apply Qle_shift_div_r; [exact Hpos |].
    change 100%Q with (inject_Z 100).
    rewrite <- inject_Z_mult, <- Zle_Qle. lia.
Qed.

(** The percentage is at least [t] exactly when [t * total <= 100 * good]
    on a non-empty list. *)
Lemma quality_of_reaches (t g n : nat) :
  0 < t ->
  (inject_Z (Z.of_nat t) <= quality_of g n)%Q <-> reaches t g n.
Proof.
  intros Ht. unfold quality_of, reaches.
  destruct (Nat.ltb_spec 0 n) as [Hn | Hn].
  - pose proof (inject_nat_pos n Hn) as Hpos.
    rewrite (ratio_percent_alt g n Hn). split.
    + intros H. split; [exact Hn |].
      apply (Qmult_le_compat_r _ _ (inject_Z (Z.of_nat n))) in H;
        [| apply Qlt_le_weak; exact Hpos].
      assert (E : (inject_Z (Z.of_nat (100 * g)) / inject_Z (Z.of_nat n)
                   * inject_Z (Z.of_nat n)
                   == inject_Z (Z.of_nat (100 * g)))%Q) by (field; lra).
      rewrite E, <- inject_Z_mult, <- Zle_Qle in H. lia.
    + intros [_ H]. apply Qle_shift_div_l; [exact Hpos |].
      rewrite <- inject_Z_mult, <- Zle_Qle. lia.
  - split.
    + intros H. exfalso.
      change 0%Q with (inject_Z 0) in H. rewrite <- Zle_Qle in H. lia.
    + intros [H _]. lia.
Qed.

(** X1. The percentage reported in the statistics lies between 0 and
    100. *)
Theorem quality_percentage_between (detections : list Detection) :
  (0 <= quality_percentage (statistics_of detections) <= 100)%Q.
Proof.
  unfold statistics_of; simpl.
  apply (round_between 0 100).
  apply quality_of_between, class_count_le.
Qed.

(** A value strictly within one half of an integer is rounded to it. *)
Lemma round_half_even_nearest (k : Z) (x : Q) :
  (inject_Z k - (1 # 2) < x < inject_Z k + (1 # 2))%Q ->
  Py.round_half_even x = k.
Proof.
  intros [Hlo Hhi].
  pose proof (Qfloor_le x) as Hf1.
  assert (E : (inject_Z (k - 1) == inject_Z k - 1)%Q).
  { unfold Z.sub. rewrite inject_Z_plus. reflexivity. }
  assert (H1 : (inject_Z (k - 1) <= x)%Q) by lra.
  apply Qfloor_resp_le in H1. rewrite Qfloor_Z in H1.
  assert (H2 : (inject_Z (Qfloor x) < inject_Z (k + 1))%Q).
  { rewrite inject_Z_plus. change (inject_Z 1) with 1%Q. lra. }
  rewrite <- Zlt_Qlt in H2.
  unfold Py.round_half_even. cbv zeta.
  destruct (Z.eq_dec (Qfloor x) k) as [Heq | Hne].
  - assert (Hc : ((x - inject_Z (Qfloor x)) ?= (1 # 2))%Q = Lt).
    { apply (proj1 (Qlt_alt _ _)). rewrite Heq. lra. }
    rewrite Hc. exact Heq.
  - assert (Heq : Qfloor x = (k - 1)%Z) by lia.
    assert (Hc : ((x - inject_Z (Qfloor x)) ?= (1 # 2))%Q = Gt).
    { apply (proj1 (Qgt_alt _ _)). rewrite Heq. lra. }
    rewrite Hc. lia.
Qed.

(** A value strictly within half a unit of the last digit of [k / 100] is
    rounded to it. *)
Lemma round_2_nearest (k : Z) (q : Q) :
  (inject_Z k / 100 - (1 # 200) < q < inject_Z k / 100 + (1 # 200))%Q ->
  (Py.round q 2 == inject_Z k / 100)%Q.
Proof.
  intros [Hlo Hhi]. unfold Py.round.
  change (inject_Z (10 ^ Z.of_nat 2)) with 100%Q.
  rewrite (round_half_even_nearest k); [reflexivity |].
  unfold Qdiv in Hlo, Hhi. change (/ 100)%Q with (1 # 100)%Q in Hlo, Hhi.
  split; lra.
Qed.

(** A value more than half a unit of the last digit below [k / 100] is
    rounded below it. *)
Lemma round_2_below (k : Z) (q : Q) :
  (q < inject_Z k / 100 - (1 # 200))%Q ->
  (Py.round q 2 < inject_Z k / 100)%Q.
Proof.
  intros Hlo. unfold Py.round.
  change (inject_Z (10 ^ Z.of_nat 2)) with 100%Q.
  pose proof (round_half_even_error (q * 100)) as He.
  apply Qabs_Qle_condition in He. destruct He as [_ He].
  unfold Qdiv in *. change (/ 100)%Q with (1 # 100)%Q in *.
  assert (Hlt : (inject_Z (Py.round_half_even (q * 100)) < inject_Z k)%Q) by lra.
  lra.
Qed.

Lemma get_quality_grade_Qeq (p q : Q) :
  (p == q)%Q -> get_quality_grade p = get_quality_grade q.
Proof.
  intros Heq.
  destruct (get_quality_grade_cases p)
    as [[H1 ->] | [[H1 ->] | [[H1 ->] | [[H1 ->] | [H1 ->]]]]];
  destruct (get_quality_grade_cases q)
    as [[H2 ->] | [[H2 ->] | [[H2 ->] | [[H2 ->] | [H2 ->]]]]];
  try reflexivity; exfalso; lra.
Qed.

(** What the statistics report around an integer threshold [t], given
    the grade at [t] and the grade just below it. *)
Lemma statistics_lag (t : Z) (at_t below_t : string) (detections : list Detection) :
  (0 <= t <= 100)%Z ->
  get_quality_grade (inject_Z t) = at_t ->
  (forall p, (inject_Z t - (1 # 200) < p < inject_Z t)%Q ->
             get_quality_grade p = below_t) ->
  lags_at t at_t below_t (statistics_of detections).
Proof.
  intros Ht Hat Hbelow. unfold lags_at, statistics_of; simpl.
  set (p := quality_of (class_count "good" detections) (length detections)).
  assert (Hp : (0 <= p <= 100)%Q) by (apply quality_of_between, class_count_le).
  assert (Ek : (inject_Z (t * 100) / 100 == inject_Z t)%Q).
  { rewrite inject_Z_mult. change (inject_Z 100) with 100%Q. field. }
  split; [| split].
  - intros [Hlo Hhi].
    assert (Hr : (Py.round p 2 == inject_Z t)%Q).
    { rewrite <- Ek. apply round_2_nearest. rewrite Ek. split; lra. }
    split; [exact Hr |]. split.
    + rewrite <- Hat. apply get_quality_grade_Qeq. exact Hr.
    + apply Hbelow. split; assumption.
  - intros Hlo. rewrite <- Ek. apply round_2_below. rewrite Ek. exact Hlo.
  - intros Hge. apply (round_between t 100).
    split; [exact Hge | apply Hp].
Qed.

(** X2. Whenever the share of good grains, times 100, lies strictly
    within 0.005 of a value with two decimals, that value is the
    percentage reported. *)
Theorem quality_percentage_nearest (detections : list Detection) (k : Z) :
  let s := statistics_of detections in
  (Qabs (quality_of (good s) (total_grains s) - inject_Z k / 100) < 1 # 200)%Q ->
  (quality_percentage s == inject_Z k / 100)%Q.
Proof.
  cbv zeta. unfold statistics_of.
  cbn [good total_grains quality_percentage]. intros H.
  apply Qabs_Qlt_condition in H. destruct H as [Hlo Hhi].
  apply round_2_nearest. split; lra.
Qed.

Lemma quality_percentage_nearest_witness :
  (Qabs (quality_of 1 3 - inject_Z 3333 / 100) < 1 # 200)%Q /\
  (quality_percentage
     (statistics_of
        (detect_grains_loop [box_of_class 0; box_of_class 1; box_of_class 2]))
   == inject_Z 3333 / 100)%Q.
Proof.
  assert (H : (Qabs (quality_of 1 3 - inject_Z 3333 / 100) < 1 # 200)%Q)
    by reflexivity.
  split; [exact H |].
  exact (quality_percentage_nearest
           (detect_grains_loop [box_of_class 0; box_of_class 1; box_of_class 2])
           3333 H).
Defined.

(** C10. Around each threshold of the grader the grade lags behind the
    percentage reported: when the unrounded percentage is less than 0.005
    below the threshold, the percentage reported is the threshold, which
    the grader would give the higher grade, while the grade in the
    statistics is the lower one; further below, the percentage reported
    is below the threshold too, and at or above the threshold so is the
    percentage reported.  With 968 good grains among 1019 the percentage
    is between 94.995 and 95: reported as 95, graded B. *)
Theorem grade_from_unrounded_percentage :
  (forall detections,
     let s := statistics_of detections in
     lags_at 95 "Отлично (A)" "Хорошо (B)" s /\
     lags_at 85 "Хорошо (B)" "Удовлетворительно (C)" s /\
     lags_at 75 "Удовлетворительно (C)" "Плохо (D)" s /\
     lags_at 60 "Плохо (D)" "Очень плохо (F)" s) /\
  (let s := statistics_of (detect_grains_loop near_threshold_boxes) in
   total_grains s = 1019 /\ good s = 968 /\
   (95 - (1 # 200) < quality_of (good s) (total_grains s) < 95)%Q /\
   (quality_percentage s == 95)%Q /\
   get_quality_grade (quality_percentage s) = "Отлично (A)" /\
   quality_grade s = "Хорошо (B)").
Proof.
  split.
  - intros detections. cbv zeta.
    split; [| split; [| split]];
      (apply statistics_lag;
       [ lia
       | reflexivity
       | intros p [Hlo Hhi]; unfold inject_Z in Hlo, Hhi;
         destruct (get_quality_grade_cases p)
           as [[? ->] | [[? ->] | [[? ->] | [[? ->] | [? ->]]]]];
         try reflexivity; exfalso; lra ]).
  - vm_compute. repeat split; congruence.
Qed.

Lemma grade_from_unrounded_percentage_witness :
  (inject_Z 95 - (1 # 200) < quality_of 968 1019 < inject_Z 95)%Q /\
  (quality_percentage (statistics_of (detect_grains_loop near_threshold_boxes))
   == inject_Z 95)%Q /\
  get_quality_grade
    (quality_percentage (statistics_of (detect_grains_loop near_threshold_boxes)))
  = "Отлично (A)" /\
  quality_grade (statistics_of (detect_grains_loop near_threshold_boxes))
  = "Хорошо (B)".
Proof.
  assert (H : (inject_Z 95 - (1 # 200) < quality_of 968 1019 < inject_Z 95)%Q)
    by (split; reflexivity).
  split; [exact H |].
  assert (Hs : (good (statistics_of (detect_grains_loop near_threshold_boxes)) = 968
                /\ total_grains (statistics_of (detect_grains_loop near_threshold_boxes))
                   = 1019)) by (vm_compute; split; reflexivity).
  destruct Hs as [Hg Ht].
  pose proof (proj1 (proj1 (proj1 grade_from_unrounded_percentage
                              (detect_grains_loop near_threshold_boxes)))) as Hlag.
  cbv zeta in Hlag. rewrite Hg, Ht in Hlag. exact (Hlag H).
Defined.

(** X3. A confidence between 0 and 1 is still between 0 and 1 once
    [/detect] has rounded it, and has moved by at most 0.00005. *)
Theorem detection_confidence_between (idx : nat) (box : Box) :
  (0 <= conf box <= 1)%Q ->
  let c := d_confidence (detect_grains_detection idx box) in
  (0 <= c <= 1)%Q /\ (Qabs (c - conf box) <= 1 # 20000)%Q.
Proof.
  intros Hc. cbv zeta. unfold detect_grains_detection.
  destruct (xyxy box) as [[[x1 y1] x2] y2]; simpl. split.
  - apply (round_between 0 1). exact Hc.
  - apply (round_error _ 4).
Qed.

Lemma detection_confidence_between_witness :
  (0 <= conf (box_of_class 0) <= 1)%Q /\
  (0 <= d_confidence (detect_grains_detection 0 (box_of_class 0)) <= 1)%Q.
Proof.
  assert (H : (0 <= conf (box_of_class 0) <= 1)%Q)
    by (split; discriminate).
  split; [exact H |].
  exact (proj1 (detection_confidence_between 0 (box_of_class 0) H)).
Defined.

(** ** The grade in terms of the counts *)

Lemma reaches_95 (g n : nat) : (95 <= quality_of g n)%Q <-> reaches 95 g n.
Proof. apply (quality_of_reaches 95). lia. Qed.

Lemma reaches_85 (g n : nat) : (85 <= quality_of g n)%Q <-> reaches 85 g n.
Proof. apply (quality_of_reaches 85). lia. Qed.

Lemma reaches_75 (g n : nat) : (75 <= quality_of g n)%Q <-> reaches 75 g n.
Proof. apply (quality_of_reaches 75). lia. Qed.

Lemma reaches_60 (g n : nat) : (60 <= quality_of g n)%Q <-> reaches 60 g n.
Proof. apply (quality_of_reaches 60). lia. Qed.

Lemma grade_of_counts (g n : nat) :
  let label := get_quality_grade (quality_of g n) in
  (label = grade_A <-> reaches 95 g n) /\
  (label = grade_B <-> reaches 85 g n /\ ~ reaches 95 g n) /\
  (label = grade_C <-> reaches 75 g n /\ ~ reaches 85 g n) /\
  (label = grade_D <-> reaches 60 g n /\ ~ reaches 75 g n) /\
  (label = grade_F <-> ~ reaches 60 g n).
Proof.
  cbv zeta.
  destruct (get_quality_grade_cases (quality_of g n))
    as [[H ->] | [[H ->] | [[H ->] | [[H ->] | [H ->]]]]];
    settle_thresholds (quality_of g n);
    rewrite ?reaches_95, ?reaches_85, ?reaches_75, ?reaches_60 in *;
    unfold grade_A, grade_B, grade_C, grade_D, grade_F;
    repeat match goal with
           | |- _ /\ _ => split
           | |- _ <-> _ => split
           end;
    intros; try discriminate; tauto.
Qed.

(** X4. The grade of the statistics, read off the counts alone: A when
    the list is not empty and [95 * total <= 100 * good], B when that
    fails but holds with 85, C with 75, D with 60, and F otherwise (the
    empty list included). *)
Theorem grade_by_counts (detections : list Detection) :
  let s := statistics_of detections in
  let g := good s in
  let n := total_grains s in
  (quality_grade s = "Отлично (A)" <-> reaches 95 g n) /\
  (quality_grade s = "Хорошо (B)" <-> reaches 85 g n /\ ~ reaches 95 g n) /\
  (quality_grade s = "Удовлетворительно (C)"
     <-> reaches 75 g n /\ ~ reaches 85 g n) /\
  (quality_grade s = "Плохо (D)" <-> reaches 60 g n /\ ~ reaches 75 g n) /\
  (quality_grade s = "Очень плохо (F)" <-> ~ reaches 60 g n).
Proof.
  cbv zeta. unfold statistics_of; simpl.
  apply grade_of_counts.
Qed.

(** ** Labels and class indices *)

Lemma unknown_label_not_named (class_id : Z) :
  ~ named_class ("unknown_" +:+ pretty class_id).
Proof. intros [H | [H | H]]; discriminate. Qed.

(** In [/detect] a detection is labelled good, bad or impurity exactly
    when the class index of its box is 0, 1 or 2. *)
Lemma detection_class_index (idx : nat) (box : Box) :
  (d_class (detect_grains_detection idx box) = "good" <-> cls box = 0%Z) /\
  (d_class (detect_grains_detection idx box) = "bad" <-> cls box = 1%Z) /\
  (d_class (detect_grains_detection idx box) = "impurity" <-> cls box = 2%Z).
Proof.
  destruct (detect_grains_detection_class idx box) as (H0 & H1 & H2 & Hu).
  destruct (decide (known_class (cls box))) as [[Hk | [Hk | Hk]] | Hk].
  - rewrite (H0 Hk), Hk. repeat split; intros; (reflexivity || discriminate).
  - rewrite (H1 Hk), Hk. repeat split; intros; (reflexivity || discriminate).
  - rewrite (H2 Hk), Hk. repeat split; intros; (reflexivity || discriminate).
  - rewrite (Hu Hk). unfold known_class in Hk.
    repeat split; intros H; (discriminate || tauto).
Qed.

Lemma cls_count_length (k : Z) (boxes : list Box) :
  cls_count k boxes = length (filter (fun box => cls box = k) boxes).
Proof. unfold cls_count. apply sum_ones. Qed.

Lemma cls_count_cons (k : Z) (box : Box) (boxes : list Box) :
  cls_count k (box :: boxes)
  = (if decide (cls box = k) then 1 else 0) + cls_count k boxes.
Proof.
  rewrite !cls_count_length, filter_cons.
  destruct (decide (cls box = k)); reflexivity.
Qed.

Lemma class_count_imap (name : string) (k : Z) (boxes : list Box) (start : nat) :
  (forall idx box, d_class (detect_grains_detection idx box) = name <-> cls box = k) ->
  class_count name (imap (fun i => detect_grains_detection (start + i)) boxes)
  = cls_count k boxes.
Proof.
  intros Hiff. revert start.
  induction boxes as [|box boxes IH]; intros start.
  - reflexivity.
  - rewrite imap_cons, class_count_cons, cls_count_cons.
    rewrite <- (IH (S start)). f_equal.
    + destruct (decide _) as [H | H]; destruct (decide _) as [H' | H'];
        try reflexivity; exfalso.
      * exact (H' (proj1 (Hiff _ _) H)).
      * exact (H (proj2 (Hiff _ _) H')).
    + f_equal. apply imap_ext. intros i b _. simpl. f_equal. lia.
Qed.

Lemma class_count_loop (name : string) (k : Z) (boxes : list Box) :
  (forall idx box, d_class (detect_grains_detection idx box) = name <-> cls box = k) ->
  class_count name (detect_grains_loop boxes) = cls_count k boxes.
Proof.
  intros Hiff. rewrite detect_grains_loop_imap.
  apply (class_count_imap name k boxes 0 Hiff).
Qed.

(** The statistics of [/detect] on the boxes of an image are the ones
    [/batch-detect] computes from the class indices. *)
Lemma statistics_of_loop (boxes : list Box) :
  as_batch_statistics (statistics_of (detect_grains_loop boxes))
  = {| b_total := length boxes;
       b_good := cls_count 0 boxes;
       b_bad := cls_count 1 boxes;
       b_impurity := cls_count 2 boxes;
       b_quality_percentage :=
         Py.round (quality_of (cls_count 0 boxes) (length boxes)) 2 |}.
Proof.
  unfold as_batch_statistics, statistics_of; simpl.
  rewrite (class_count_loop "good" 0), (class_count_loop "bad" 1),
    (class_count_loop "impurity" 2), detect_grains_loop_length;
    try reflexivity; intros idx box; apply detection_class_index.
Qed.

Lemma cls_total_cons (box : Box) (boxes : list Box) :
  cls_count 0 (box :: boxes) + cls_count 1 (box :: boxes) + cls_count 2 (box :: boxes)
  = (if decide (known_class (cls box)) then 1 else 0)
    + (cls_count 0 boxes + cls_count 1 boxes + cls_count 2 boxes).
Proof.
  rewrite !cls_count_cons. unfold known_class.
  repeat destruct (decide _); try lia; tauto.
Qed.

Lemma cls_total_le (boxes : list Box) :
  cls_count 0 boxes + cls_count 1 boxes + cls_count 2 boxes <= length boxes.
Proof.
  induction boxes as [|box boxes IH]; [reflexivity |].
  rewrite cls_total_cons. simpl. destruct (decide _); lia.
Qed.

Lemma cls_total_eq_iff (boxes : list Box) :
  cls_count 0 boxes + cls_count 1 boxes + cls_count 2 boxes = length boxes
  <-> Forall (fun box => known_class (cls box)) boxes.
Proof.
  induction boxes as [|box boxes IH].
  - split; [constructor | reflexivity].
  - rewrite cls_total_cons. simpl.
    pose proof (cls_total_le boxes) as Hle.
    destruct (decide (known_class (cls box))) as [Hk | Hk]; split.
    + intros H. constructor; [assumption |]. apply IH. lia.
    + intros H. inversion H; subst. f_equal. apply IH. assumption.
    + intros H. lia.
    + intros H. inversion H; subst. contradiction.
Qed.

(** ** The [/detect] endpoint *)

Section Detect.

Variable run_model : UploadFile -> Q -> option Q -> outcome Inference.
Variable str_HTTPException : Z -> string -> string.

Lemma detect_grains_try_image (file : UploadFile) (confidence iou : Q) (ct : string) :
  content_type file = Some ct ->
  String.prefix "image/" ct = true ->
  detect_grains_try run_model file confidence iou
  = inference ← run_model file confidence (Some iou);
    Returns {| success := true;
               image_info := (filename file, img_width inference, img_height inference);
               detections := detect_grains_loop (boxes inference);
               statistics := statistics_of (detect_grains_loop (boxes inference));
               parameters := (confidence, iou) |}.
Proof.
  intros Hct Himg. unfold detect_grains_try, is_image.
  rewrite Hct. simpl. rewrite Himg. reflexivity.
Qed.

(** What a returned answer of [/detect] is made of. *)
Lemma detect_grains_inv (file : UploadFile) (confidence iou : Q)
    (response : DetectResponse) :
  detect_grains run_model str_HTTPException file confidence iou = Returns response ->
  exists ct inference,
    content_type file = Some ct /\
    String.prefix "image/" ct = true /\
    run_model file confidence (Some iou) = Returns inference /\
    response =
      {| success := true;
         image_info := (filename file, img_width inference, img_height inference);
         detections := detect_grains_loop (boxes inference);
         statistics := statistics_of (detect_grains_loop (boxes inference));
         parameters := (confidence, iou) |}.
Proof.
  unfold detect_grains, detect_grains_try, is_image.
  destruct (content_type file) as [ct |]; simpl; [| discriminate].
  destruct (String.prefix "image/" ct) eqn:Himg; simpl; [| discriminate].
  destruct (run_model file confidence (Some iou)) as [inference | e] eqn:Hrun;
    simpl; [| discriminate].
  intros H. injection H as <-.
  exists ct, inference. repeat split; assumption.
Qed.

End Detect.

(** X5. [/detect] answers exactly when the upload is declared an image
    and the pipeline returns: no box, whatever its class index, makes it
    fail.  Every failure it reports has status 500. *)
Theorem detect_grains_succeeds_iff
    (run_model : UploadFile -> Q -> option Q -> outcome Inference)
    (str_HTTPException : Z -> string -> string)
    (file : UploadFile) (confidence iou : Q) :
  ((exists response,
      detect_grains run_model str_HTTPException file confidence iou
        = Returns response)
   <-> (exists ct, content_type file = Some ct /\ String.prefix "image/" ct = true)
       /\ (exists inference, run_model file confidence (Some iou) = Returns inference)) /\
  (forall e,
     detect_grains run_model str_HTTPException file confidence iou = Raises e ->
     exists detail, e = HTTPException 500 detail).
Proof.
  split; [split |].
  - intros [response H].
    destruct (detect_grains_inv _ _ _ _ _ _ H) as (ct & inference & Hct & Himg & Hrun & _).
    eauto.
  - intros [(ct & Hct & Himg) (inference & Hrun)].
    unfold detect_grains.
    rewrite (detect_grains_try_image _ _ _ _ ct Hct Himg), Hrun. simpl. eauto.
  - intros e. unfold detect_grains.
    destruct (detect_grains_try _ _ _ _); [discriminate |].
    intros H. injection H as <-. eauto.
Qed.

(** X6. An upload that is not declared an image is answered with status
    500, not 400: the 400 raised for it is caught by the handler's own
    [except] and reported as the detail of a 500.  An upload without a
    content type gets a 500 as well.  The model is not consulted. *)
Theorem detect_grains_rejects_non_image
    (run_model : UploadFile -> Q -> option Q -> outcome Inference)
    (str_HTTPException : Z -> string -> string)
    (file : UploadFile) (confidence iou : Q) :
  (forall ct,
     content_type file = Some ct ->
     String.prefix "image/" ct = false ->
     detect_grains run_model str_HTTPException file confidence iou
     = Raises (HTTPException 500 (str_HTTPException 400%Z not_an_image))) /\
  (content_type file = None ->
   detect_grains run_model str_HTTPException file confidence iou
   = Raises (HTTPException 500 "'NoneType' object has no attribute 'startswith'")).
Proof.
  unfold detect_grains, detect_grains_try, is_image. split.
  - intros ct Hct Himg. rewrite Hct. simpl. rewrite Himg. reflexivity.
  - intros Hct. rewrite Hct. reflexivity.
Qed.

Lemma detect_grains_rejects_non_image_witness :
  (content_type (text_file "notes.txt") = Some "text/plain" /\
   String.prefix "image/" "text/plain" = false) /\
  detect_grains (model_finding [box_of_class 0]) status_and_detail
    (text_file "notes.txt") (1 # 4) (9 # 20)
  = Raises (HTTPException 500 "400: Файл должен быть изображением (JPEG, PNG)").
Proof.
  assert (Hct : content_type (text_file "notes.txt") = Some "text/plain")
    by reflexivity.
  assert (Himg : String.prefix "image/" "text/plain" = false) by reflexivity.
  split; [split; assumption |].
  exact (proj1 (detect_grains_rejects_non_image
                  (model_finding [box_of_class 0]) status_and_detail
                  (text_file "notes.txt") (1 # 4) (9 # 20))
               "text/plain" Hct Himg).
Defined.

(** X7. An answer of [/detect] holds one detection per box of the model,
    in the model's order: the detection at position [i] has id [i] and
    the class index of the box at position [i], and [total_grains] is the
    number of boxes. *)
Theorem detect_grains_detections
    (run_model : UploadFile -> Q -> option Q -> outcome Inference)
    (str_HTTPException : Z -> string -> string)
    (file : UploadFile) (confidence iou : Q)
    (inference : Inference) (response : DetectResponse) :
  run_model file confidence (Some iou) = Returns inference ->
  detect_grains run_model str_HTTPException file confidence iou = Returns response ->
  length (detections response) = length (boxes inference) /\
  total_grains (statistics response) = length (boxes inference) /\
  forall i box,
    boxes inference !! i = Some box ->
    exists d,
      detections response !! i = Some d /\
      d_id d = i /\
      d_class_id d = cls box /\
      d = detect_grains_detection i box.
Proof.
  intros Hrun H.
  destruct (detect_grains_inv _ _ _ _ _ _ H)
    as (ct & inference' & _ & _ & Hrun' & ->).
  rewrite Hrun in Hrun'. injection Hrun' as <-. simpl.
  rewrite detect_grains_loop_length. repeat split.
  intros i box Hbox.
  exists (detect_grains_detection i box).
  split.
  - rewrite detect_grains_loop_imap, list_lookup_imap, Hbox. reflexivity.
  - unfold detect_grains_detection.
    destruct (xyxy box) as [[[x1 y1] x2] y2]. repeat split.
Qed.

Lemma detect_grains_detections_witness :
  (model_finding [box_of_class 2; box_of_class 7] (image_file "a.jpg") (1 # 4) (Some (9 # 20))
   = Returns {| img_width := 640; img_height := 640;
                boxes := [box_of_class 2; box_of_class 7] |}) /\
  exists response,
    detect_grains (model_finding [box_of_class 2; box_of_class 7]) status_and_detail
      (image_file "a.jpg") (1 # 4) (9 # 20) = Returns response /\
    length (detections response) = 2.
Proof.
  split; [reflexivity |].
  eexists. split; [reflexivity |].
  exact (proj1 (detect_grains_detections
                  (model_finding [box_of_class 2; box_of_class 7]) status_and_detail
                  (image_file "a.jpg") (1 # 4) (9 # 20) _ _ eq_refl eq_refl)).
Defined.

(** X8. In an answer of [/detect] the counters good, bad and impurity are
    the numbers of boxes of class index 0, 1 and 2, and they add up to
    [total_grains] exactly when every box has one of these indices. *)
Theorem detect_grains_counts
    (run_model : UploadFile -> Q -> option Q -> outcome Inference)
    (str_HTTPException : Z -> string -> string)
    (file : UploadFile) (confidence iou : Q)
    (inference : Inference) (response : DetectResponse) :
  run_model file confidence (Some iou) = Returns inference ->
  detect_grains run_model str_HTTPException file confidence iou = Returns response ->
  let s := statistics response in
  good s = cls_count 0 (boxes inference) /\
  bad s = cls_count 1 (boxes inference) /\
  impurity s = cls_count 2 (boxes inference) /\
  (good s + bad s + impurity s = total_grains s
   <-> Forall (fun box => known_class (cls box)) (boxes inference)).
Proof.
  intros Hrun H.
  destruct (detect_grains_inv _ _ _ _ _ _ H)
    as (ct & inference' & _ & _ & Hrun' & ->).
  rewrite Hrun in Hrun'. injection Hrun' as <-. cbv zeta.
  pose proof (statistics_of_loop (boxes inference)) as Hs.
  pose proof (f_equal b_total Hs) as Ht.
  pose proof (f_equal b_good Hs) as Hg.
  pose proof (f_equal b_bad Hs) as Hb.
  pose proof (f_equal b_impurity Hs) as Hi.
  cbn [as_batch_statistics b_total b_good b_bad b_impurity] in Ht, Hg, Hb, Hi.
  cbn [statistics]. rewrite Ht, Hg, Hb, Hi.
  repeat split; apply cls_total_eq_iff.
Qed.

Lemma detect_grains_counts_witness :
  (model_finding [box_of_class 2; box_of_class 7] (image_file "a.jpg") (1 # 4) (Some (9 # 20))
   = Returns {| img_width := 640; img_height := 640;
                boxes := [box_of_class 2; box_of_class 7] |}) /\
  exists response,
    detect_grains (model_finding [box_of_class 2; box_of_class 7]) status_and_detail
      (image_file "a.jpg") (1 # 4) (9 # 20) = Returns response /\
    impurity (statistics response) = 1.
Proof.
  split; [reflexivity |].
  eexists. split; [reflexivity |].
  exact (proj1 (proj2 (proj2 (detect_grains_counts
                  (model_finding [box_of_class 2; box_of_class 7]) status_and_detail
                  (image_file "a.jpg") (1 # 4) (9 # 20) _ _ eq_refl eq_refl)))).
Defined.

(** ** The [/batch-detect] endpoint *)

Lemma batch_entry_returns
    (run_model : UploadFile -> Q -> option Q -> outcome Inference)
    (str_HTTPException : Z -> string -> string)
    (confidence : Q) (file : UploadFile) (inference : Inference) :
  run_model file confidence None = Returns inference ->
  batch_entry run_model str_HTTPException confidence file
  = {| r_filename := filename file;
       r_success := true;
       r_statistics :=
         Some (as_batch_statistics
                 (statistics_of (detect_grains_loop (boxes inference))));
       r_error := None |}.
Proof.
  intros Hrun. unfold batch_entry, batch_detect_try.
  rewrite Hrun, statistics_of_loop. reflexivity.
Qed.

Lemma cls_count_le (k : Z) (boxes : list Box) :
  cls_count k boxes <= length boxes.
Proof. rewrite cls_count_length. apply length_filter. Qed.

(** X9. For a file on which the model finds the same boxes, the
    statistics of its [/batch-detect] entry, counted by class index, are
    those of [/detect], counted by label. *)
Theorem batch_agrees_with_detect
    (run_model : UploadFile -> Q -> option Q -> outcome Inference)
    (str_HTTPException : Z -> string -> string)
    (files : list UploadFile) (confidence iou : Q)
    (i : nat) (file : UploadFile)
    (inference inference' : Inference) (response : DetectResponse) :
  files !! i = Some file ->
  run_model file confidence None = Returns inference ->
  run_model file confidence (Some iou) = Returns inference' ->
  boxes inference' = boxes inference ->
  detect_grains run_model str_HTTPException file confidence iou = Returns response ->
  exists entry,
    results (batch_detect run_model str_HTTPException files confidence) !! i
      = Some entry /\
    r_statistics entry = Some (as_batch_statistics (statistics response)).
Proof.
  intros Hfile Hrun Hrun' Hboxes H.
  destruct (detect_grains_inv _ _ _ _ _ _ H)
    as (ct & inference'' & _ & _ & Hrun'' & ->).
  rewrite Hrun' in Hrun''. injection Hrun'' as <-.
  exists (batch_entry run_model str_HTTPException confidence file). split.
  - rewrite batch_detect_results, list_lookup_fmap, Hfile. reflexivity.
  - rewrite (batch_entry_returns _ _ _ _ _ Hrun). simpl.
    rewrite Hboxes. reflexivity.
Qed.

Lemma batch_agrees_with_detect_witness :
  ([photo "a.png"] !! 0 = Some (photo "a.png") /\
   model_rejecting_empty (photo "a.png") (1 # 4) None
     = model_rejecting_empty (photo "a.png") (1 # 4) (Some (9 # 20))) /\
  exists entry response,
    detect_grains model_rejecting_empty status_and_detail
      (photo "a.png") (1 # 4) (9 # 20) = Returns response /\
    results (batch_detect model_rejecting_empty status_and_detail
               [photo "a.png"] (1 # 4)) !! 0 = Some entry /\
    r_statistics entry = Some (as_batch_statistics (statistics response)).
Proof.
  split; [split; reflexivity |].
  destruct (batch_agrees_with_detect
              model_rejecting_empty status_and_detail
              [photo "a.png"] (1 # 4) (9 # 20) 0 (photo "a.png") _ _ _
              eq_refl eq_refl eq_refl eq_refl eq_refl)
    as (entry & Hentry & Hstats).
  exists entry. eexists. split; [reflexivity |].
  split; [exact Hentry | exact Hstats].
Defined.

(** X10. A file the pipeline can process gets a success entry whatever
    the class indices of its boxes: the three counters add up to at most
    [total], to exactly [total] when every box has index 0, 1 or 2, and
    the percentage lies between 0 and 100. *)
Theorem batch_entry_counts
    (run_model : UploadFile -> Q -> option Q -> outcome Inference)
    (str_HTTPException : Z -> string -> string)
    (files : list UploadFile) (confidence : Q)
    (i : nat) (file : UploadFile) (inference : Inference) :
  files !! i = Some file ->
  run_model file confidence None = Returns inference ->
  exists entry st,
    results (batch_detect run_model str_HTTPException files confidence) !! i
      = Some entry /\
    r_success entry = true /\
    r_statistics entry = Some st /\
    b_total st = length (boxes inference) /\
    b_good st + b_bad st + b_impurity st <= b_total st /\
    (b_good st + b_bad st + b_impurity st = b_total st
     <-> Forall (fun box => known_class (cls box)) (boxes inference)) /\
    (0 <= b_quality_percentage st <= 100)%Q.
Proof.
  intros Hfile Hrun.
  pose proof (batch_entry_returns _ str_HTTPException _ _ _ Hrun) as He.
  rewrite statistics_of_loop in He.
  exists (batch_entry run_model str_HTTPException confidence file). eexists.
  split.
  { rewrite batch_detect_results, list_lookup_fmap, Hfile. reflexivity. }
  rewrite He. simpl.
  split; [reflexivity |]. split; [reflexivity |]. simpl.
  split; [reflexivity |].
  split; [apply cls_total_le |].
  split; [apply cls_total_eq_iff |].
  apply (round_between 0 100), quality_of_between, cls_count_le.
Qed.

Lemma batch_entry_counts_witness :
  ([image_file "a.jpg"] !! 0 = Some (image_file "a.jpg") /\
   model_finding [box_of_class 0; box_of_class 9] (image_file "a.jpg") (1 # 4) None
     = Returns {| img_width := 640; img_height := 640;
                  boxes := [box_of_class 0; box_of_class 9] |}) /\
  exists entry st,
    results (batch_detect (model_finding [box_of_class 0; box_of_class 9])
               status_and_detail [image_file "a.jpg"] (1 # 4)) !! 0 = Some entry /\
    r_success entry = true /\
    r_statistics entry = Some st /\
    b_total st = 2.
Proof.
  split; [split; reflexivity |].
  destruct (batch_entry_counts
              (model_finding [box_of_class 0; box_of_class 9]) status_and_detail
              [image_file "a.jpg"] (1 # 4) 0 (image_file "a.jpg") _
              eq_refl eq_refl)
    as (entry & st & Hentry & Hs & Hst & Ht & _).
  exists entry, st. repeat split; assumption.
Defined.

(** X11. A batch can be cut anywhere: the entries of a list of files are
    the entries of its first part followed by those of the rest, and the
    numbers processed add up. *)
Theorem batch_detect_app
    (run_model : UploadFile -> Q -> option Q -> outcome Inference)
    (str_HTTPException : Z -> string -> string)
    (files files' : list UploadFile) (confidence : Q) :
  results (batch_detect run_model str_HTTPException (files ++ files') confidence)
  = results (batch_detect run_model str_HTTPException files confidence)
    ++ results (batch_detect run_model str_HTTPException files' confidence) /\
  processed (batch_detect run_model str_HTTPException (files ++ files') confidence)
  = processed (batch_detect run_model str_HTTPException files confidence)
    + processed (batch_detect run_model str_HTTPException files' confidence).
Proof.
  rewrite !batch_detect_results. split.
  - apply fmap_app.
  - simpl. apply length_app.
Qed.

(** ** The [/detect-with-image] endpoint *)

(** A list of boxes has only known class indices, or a first box of
    unknown class index. *)
Lemma first_unknown_box (boxes : list Box) :
  Forall (fun box => known_class (cls box)) boxes \/
  exists pre box post,
    boxes = pre ++ box :: post /\
    Forall (fun box => known_class (cls box)) pre /\
    ~ known_class (cls box).
Proof.
  induction boxes as [|box boxes IH].
  - left. constructor.
  - destruct (decide (known_class (cls box))) as [Hk | Hk].
    + destruct IH as [Hall | (pre & b & post & -> & Hpre & Hb)].
      * left. constructor; assumption.
      * right. exists (box :: pre), b, post.
        split; [reflexivity |]. split; [constructor; assumption | assumption].
    + right. exists [], box, boxes. split; [reflexivity |].
      split; [constructor | assumption].
Qed.

(** On a box of known class index [/detect-with-image] makes the
    detection of [/detect], with the four corners only in its bbox. *)
Lemma detect_with_visualization_detection_known (idx : nat) (box : Box) :
  known_class (cls box) ->
  detect_with_visualization_detection idx box
  = Returns (corners_only (detect_grains_detection idx box)).
Proof.
  intros Hk.
  unfold detect_with_visualization_detection, detect_grains_detection,
    corners_only, Py.subscript, Py.get.
  destruct (xyxy box) as [[[x1 y1] x2] y2].
  destruct (CLASS_NAMES_known _ Hk) as [[-> _] | [[-> _] | [-> _]]];
    reflexivity.
Qed.

Lemma mapM_detection_known (boxes : list Box) (start : nat) :
  Forall (fun box => known_class (cls box)) boxes ->
  mapM (fun '(idx, box) => detect_with_visualization_detection idx box)
       (zip (seq start (length boxes)) boxes)
  = Returns (imap (fun i box => corners_only (detect_grains_detection (start + i) box))
                  boxes).
Proof.
  revert start. induction boxes as [|box boxes IH]; intros start Hall.
  - reflexivity.
  - inversion Hall as [|? ? Hk Hrest]; subst. simpl.
    rewrite (detect_with_visualization_detection_known _ _ Hk).
    rewrite (IH (S start) Hrest). simpl.
    rewrite Nat.add_0_r. do 2 f_equal.
    apply imap_ext. intros i b _. simpl. do 2 f_equal. lia.
Qed.

Lemma mapM_detection_first_unknown (pre post : list Box) (box : Box) (start : nat) :
  Forall (fun box => known_class (cls box)) pre ->
  ~ known_class (cls box) ->
  mapM (fun '(idx, box) => detect_with_visualization_detection idx box)
       (zip (seq start (length (pre ++ box :: post))) (pre ++ box :: post))
  = Raises (KeyError (cls box)).
Proof.
  intros Hpre Hbox. revert start.
  induction pre as [|b pre IH]; intros start; simpl.
  - rewrite (detect_with_visualization_detection_unknown _ _ Hbox). reflexivity.
  - inversion Hpre as [|? ? Hk Hrest]; subst.
    rewrite (detect_with_visualization_detection_known _ _ Hk).
    simpl. rewrite (IH Hrest (S start)). reflexivity.
Qed.

Lemma class_count_corners (name : string) (detections : list Detection) :
  class_count name (corners_only <$> detections) = class_count name detections.
Proof.
  induction detections as [|d detections IH]; [reflexivity |].
  rewrite fmap_cons, !class_count_cons, IH. reflexivity.
Qed.

Lemma statistics_of_corners (detections : list Detection) :
  statistics_of (corners_only <$> detections) = statistics_of detections.
Proof.
  unfold statistics_of. rewrite !class_count_corners, length_fmap. reflexivity.
Qed.

(** ** Drawing *)

Lemma CLASS_COLORS_unknown (class_id : Z) :
  ~ known_class class_id -> CLASS_COLORS !! class_id = None.
Proof.
  unfold known_class, CLASS_COLORS. intros H.
  rewrite !lookup_insert_ne by (intros ?; subst; tauto).
  apply lookup_empty.
Qed.

(** On a box of unknown class index the loop body draws the rectangle in
    the fallback colour and then raises [KeyError], unless the drawing
    itself raised. *)
Lemma draw_detection_unknown (cv2 : Cv2) (box : Box) (img : ndarray) :
  ~ known_class (cls box) ->
  draw_detection cv2 box img
  = match rectangle cv2 img (corners box).1 (corners box).2 white 2 with
    | Returns img' => (img', Raises (KeyError (cls box)))
    | Raises e => (img, Raises e)
    end.
Proof.
  intros Hk. unfold draw_detection, corners, white, Py.get, Py.subscript.
  destruct (xyxy box) as [[[x1 y1] x2] y2].
  rewrite (CLASS_COLORS_unknown _ Hk), (CLASS_NAMES_unknown _ Hk).
  unfold mbind, inplace_bind, draws, leaves. simpl.
  destruct (rectangle cv2 img _ _ _ _); reflexivity.
Qed.

Lemma draw_detection_returns_known (cv2 : Cv2) (box : Box) (img img' : ndarray) :
  draw_detection cv2 box img = (img', Returns tt) -> known_class (cls box).
Proof.
  intros H. destruct (decide (known_class (cls box))) as [Hk | Hk]; [exact Hk |].
  rewrite (draw_detection_unknown _ _ _ Hk) in H.
  destruct (rectangle cv2 img _ _ _ _); discriminate.
Qed.

(** On a box of known class index it returns when OpenCV does. *)
Lemma draw_detection_known (cv2 : Cv2) (box : Box) (img : ndarray) :
  cv2_returns cv2 ->
  known_class (cls box) ->
  exists img', draw_detection cv2 box img = (img', Returns tt).
Proof.
  intros (Hrect & Hsize & Htext) Hk.
  unfold draw_detection, Py.subscript.
  destruct (xyxy box) as [[[x1 y1] x2] y2].
  destruct (CLASS_NAMES_known _ Hk) as [[-> _] | [[-> _] | [-> _]]];
    unfold mbind, inplace_bind, draws, leaves; simpl;
    repeat (match goal with
            | |- context [rectangle cv2 ?i ?a ?b ?c ?d] =>
                destruct (Hrect i a b c d) as [? ->]
            | |- context [getTextSize cv2 ?t] =>
                destruct (Hsize t) as [[? ?] ->]
            | |- context [putText cv2 ?i ?t ?o ?c] =>
                destruct (Htext i t o c) as [? ->]
            end; simpl);
    eauto.
Qed.

Lemma draw_detections_loop_cons (cv2 : Cv2) (box : Box) (boxes : list Box)
    (img : ndarray) :
  draw_detections_loop cv2 (box :: boxes) img
  = match draw_detection cv2 box img with
    | (img', Returns _) => draw_detections_loop cv2 boxes img'
    | (img', Raises e) => (img', Raises e)
    end.
Proof. reflexivity. Qed.

Lemma draw_detections_loop_app (cv2 : Cv2) (pre boxes : list Box) (img : ndarray) :
  draw_detections_loop cv2 (pre ++ boxes) img
  = match draw_detections_loop cv2 pre img with
    | (img', Returns _) => draw_detections_loop cv2 boxes img'
    | (img', Raises e) => (img', Raises e)
    end.
Proof.
  revert img. induction pre as [|box pre IH]; intros img.
  - reflexivity.
  - simpl app. rewrite !draw_detections_loop_cons.
    destruct (draw_detection cv2 box img) as [img' [u | e]]; [apply IH | reflexivity].
Qed.

Lemma draw_detections_loop_returns_known (cv2 : Cv2) (boxes : list Box)
    (img img' : ndarray) (u : unit) :
  draw_detections_loop cv2 boxes img = (img', Returns u) ->
  Forall (fun box => known_class (cls box)) boxes.
Proof.
  revert img. induction boxes as [|box boxes IH]; intros img H.
  - constructor.
  - rewrite draw_detections_loop_cons in H.
    destruct (draw_detection cv2 box img) as [img1 [[] | e]] eqn:Hbox;
      [| discriminate].
    constructor; [exact (draw_detection_returns_known _ _ _ _ Hbox) |].
    exact (IH _ H).
Qed.

Lemma draw_detections_loop_known (cv2 : Cv2) (boxes : list Box) (img : ndarray) :
  cv2_returns cv2 ->
  Forall (fun box => known_class (cls box)) boxes ->
  exists img', draw_detections_loop cv2 boxes img = (img', Returns tt).
Proof.
  intros Hcv2 Hall. revert img.
  induction Hall as [|box boxes Hk _ IH]; intros img.
  - exists img. reflexivity.
  - rewrite draw_detections_loop_cons.
    destruct (draw_detection_known cv2 box img Hcv2 Hk) as [img1 ->].
    apply IH.
Qed.

Lemma draw_detections_returns_known (cv2 : Cv2) (image annotated : ndarray)
    (boxes : list Box) :
  draw_detections cv2 image boxes = Returns annotated ->
  Forall (fun box => known_class (cls box)) boxes.
Proof.
  unfold draw_detections.
  destruct (draw_detections_loop cv2 boxes image) as [img [u | e]] eqn:Hloop;
    [| discriminate].
  intros _. exact (draw_detections_loop_returns_known _ _ _ _ _ Hloop).
Qed.

(** X12. [draw_detections] returns only when every box has class index
    0, 1 or 2, and does return then when no OpenCV call raises.  At the
    first box of another index, the rectangle of that box is drawn on the
    working copy in the white fallback colour, and only then is
    [KeyError] raised for its index; the caller gets the [KeyError]. *)
Theorem draw_detections_outcome (cv2 : Cv2) (image : ndarray) (boxes : list Box) :
  ((exists annotated, draw_detections cv2 image boxes = Returns annotated) ->
   Forall (fun box => known_class (cls box)) boxes) /\
  (cv2_returns cv2 ->
   Forall (fun box => known_class (cls box)) boxes ->
   exists annotated, draw_detections cv2 image boxes = Returns annotated) /\
  (forall pre box post img img',
     boxes = pre ++ box :: post ->
     draw_detections_loop cv2 pre image = (img, Returns tt) ->
     ~ known_class (cls box) ->
     rectangle cv2 img (corners box).1 (corners box).2 white 2 = Returns img' ->
     draw_detections_loop cv2 boxes image = (img', Raises (KeyError (cls box))) /\
     draw_detections cv2 image boxes = Raises (KeyError (cls box))).
Proof.
  split; [| split].
  - intros [annotated H]. exact (draw_detections_returns_known _ _ _ _ H).
  - intros Hcv2 Hall. unfold draw_detections.
    destruct (draw_detections_loop_known cv2 boxes image Hcv2 Hall) as [img' ->].
    eauto.
  - intros pre box post img img' -> Hpre Hbox Hrect.
    assert (Hloop : draw_detections_loop cv2 (pre ++ box :: post) image
                    = (img', Raises (KeyError (cls box)))).
    { rewrite draw_detections_loop_app, Hpre, draw_detections_loop_cons.
      rewrite (draw_detection_unknown _ _ _ Hbox), Hrect. reflexivity. }
    split; [exact Hloop |].
    unfold draw_detections. rewrite Hloop. reflexivity.
Qed.

Lemma draw_detections_outcome_witness :
  ([box_of_class 1; box_of_class 4; box_of_class 6]
     = [box_of_class 1] ++ box_of_class 4 :: [box_of_class 6] /\
   draw_detections_loop cv2_recording [box_of_class 1] no_pixels
     = ({| shape := (0, 0, 3)%Z; data := [255; 0; 0; 255; 0; 0]%Z |}, Returns tt) /\
   ~ known_class (cls (box_of_class 4)) /\
   rectangle cv2_recording
     {| shape := (0, 0, 3)%Z; data := [255; 0; 0; 255; 0; 0]%Z |}
     (corners (box_of_class 4)).1 (corners (box_of_class 4)).2 white 2
   = Returns {| shape := (0, 0, 3)%Z;
                data := [255; 255; 255; 255; 0; 0; 255; 0; 0]%Z |}) /\
  draw_detections cv2_recording no_pixels
    [box_of_class 1; box_of_class 4; box_of_class 6]
  = Raises (KeyError 4).
Proof.
  assert (Hpre : draw_detections_loop cv2_recording [box_of_class 1] no_pixels
     = ({| shape := (0, 0, 3)%Z; data := [255; 0; 0; 255; 0; 0]%Z |}, Returns tt))
    by reflexivity.
  assert (Hbox : ~ known_class (cls (box_of_class 4))).
  { intros [H | [H | H]]; discriminate. }
  split; [repeat split; assumption |].
  exact (proj2 (proj2 (proj2 (draw_detections_outcome cv2_recording no_pixels
                         [box_of_class 1; box_of_class 4; box_of_class 6]))
               [box_of_class 1] (box_of_class 4) [box_of_class 6] _ _
               eq_refl Hpre Hbox eq_refl)).
Defined.

(** ** The answers of [/detect-with-image] *)

Section Visualization.

Variable run_model_array : UploadFile -> Q -> Q -> outcome (ndarray * Inference).
Variable cv2 : Cv2.
Variable encode_jpeg : ndarray -> outcome string.
Variable str_HTTPException : Z -> string -> string.

(** The [try] block once the model has answered with boxes of known
    class index only. *)
Lemma detect_with_visualization_try_known
    (file : UploadFile) (confidence iou : Q) (return_image : bool)
    (img_array : ndarray) (inference : Inference) :
  run_model_array file confidence iou = Returns (img_array, inference) ->
  Forall (fun box => known_class (cls box)) (boxes inference) ->
  detect_with_visualization_try run_model_array cv2 encode_jpeg
    file confidence iou return_image
  = img_base64 ← annotate cv2 encode_jpeg img_array (boxes inference) return_image;
    Returns
      {| v_success := true;
         v_detections := corners_only <$> detect_grains_loop (boxes inference);
         v_statistics := statistics_of (detect_grains_loop (boxes inference));
         v_annotated_image := data_url <$> img_base64 |}.
Proof.
  intros Hrun Hall.
  assert (Hdets :
    imap (fun i box => corners_only (detect_grains_detection (0 + i) box))
         (boxes inference)
    = corners_only <$> detect_grains_loop (boxes inference)).
  { rewrite detect_grains_loop_imap, fmap_imap. reflexivity. }
  unfold detect_with_visualization_try, Py.enumerate, annotate.
  rewrite Hrun. simpl.
  rewrite (mapM_detection_known _ 0 Hall), Hdets. simpl.
  rewrite statistics_of_corners. reflexivity.
Qed.

Lemma detect_with_visualization_first_unknown
    (file : UploadFile) (confidence iou : Q) (return_image : bool)
    (img_array : ndarray) (inference : Inference)
    (pre post : list Box) (box : Box) :
  run_model_array file confidence iou = Returns (img_array, inference) ->
  boxes inference = pre ++ box :: post ->
  Forall (fun box => known_class (cls box)) pre ->
  ~ known_class (cls box) ->
  detect_with_visualization run_model_array cv2 encode_jpeg str_HTTPException
    file confidence iou return_image
  = Raises (HTTPException 500 (pretty (cls box))).
Proof.
  intros Hrun Heq Hpre Hbox.
  unfold detect_with_visualization, detect_with_visualization_try, Py.enumerate.
  rewrite Hrun. simpl. rewrite Heq.
  rewrite (mapM_detection_first_unknown _ _ _ 0 Hpre Hbox). reflexivity.
Qed.

(** What a returned answer of [/detect-with-image] is made of. *)
Lemma detect_with_visualization_inv
    (file : UploadFile) (confidence iou : Q) (return_image : bool)
    (visual : VisualResponse) :
  detect_with_visualization run_model_array cv2 encode_jpeg str_HTTPException
    file confidence iou return_image = Returns visual ->
  exists img_array inference img_base64,
    run_model_array file confidence iou = Returns (img_array, inference) /\
    Forall (fun box => known_class (cls box)) (boxes inference) /\
    annotate cv2 encode_jpeg img_array (boxes inference) return_image = Returns img_base64 /\
    visual =
      {| v_success := true;
         v_detections := corners_only <$> detect_grains_loop (boxes inference);
         v_statistics := statistics_of (detect_grains_loop (boxes inference));
         v_annotated_image := data_url <$> img_base64 |}.
Proof.
  intros H.
  destruct (run_model_array file confidence iou) as [[img_array inference] | e]
    eqn:Hrun.
  - destruct (first_unknown_box (boxes inference))
      as [Hall | (pre & b & post & Heq & Hpre & Hb)].
    + unfold detect_with_visualization in H.
      rewrite (detect_with_visualization_try_known _ _ _ _ _ _ Hrun Hall) in H.
      destruct (annotate cv2 encode_jpeg img_array (boxes inference) return_image)
        as [img_base64 | e] eqn:Hann; simpl in H; [| discriminate].
      injection H as <-.
      exists img_array, inference, img_base64. repeat split; assumption.
    + rewrite (detect_with_visualization_first_unknown
                 _ _ _ _ _ _ _ _ _ Hrun Heq Hpre Hb) in H.
      discriminate.
  - unfold detect_with_visualization, detect_with_visualization_try in H.
    rewrite Hrun in H. discriminate.
Qed.

Lemma annotate_inv (img_array : ndarray) (found : list Box)
    (return_image : bool) (img_base64 : option string) :
  annotate cv2 encode_jpeg img_array found return_image = Returns img_base64 ->
  (return_image = false /\ img_base64 = None) \/
  (return_image = true /\
   exists annotated_array text,
     draw_detections cv2 img_array found = Returns annotated_array /\
     encode_jpeg annotated_array = Returns text /\
     img_base64 = Some text).
Proof.
  unfold annotate. destruct return_image.
  - destruct (draw_detections cv2 img_array found) as [annotated_array | e];
      simpl; [| discriminate].
    destruct (encode_jpeg annotated_array) as [text | e] eqn:Henc;
      simpl; [| discriminate].
    intros H. injection H as <-. right. eauto 10.
  - intros H. injection H as <-. left. auto.
Qed.

End Visualization.

(** X13. When the two endpoints get the same boxes for a file and both
    answer, [/detect-with-image] holds the detections of [/detect] (ids,
    labels, class indices, confidences), their bbox cut down to the four
    corners, and the same statistics.  Its image is absent without
    [return_image]; with it, it is the data URL of what the encoder made
    of the array [draw_detections] returned. *)
Theorem visualization_agrees_with_detect
    (run_model : UploadFile -> Q -> option Q -> outcome Inference)
    (run_model_array : UploadFile -> Q -> Q -> outcome (ndarray * Inference))
    (cv2 : Cv2) (encode_jpeg : ndarray -> outcome string)
    (str_HTTPException : Z -> string -> string)
    (file : UploadFile) (confidence iou : Q) (return_image : bool)
    (inference inference' : Inference) (img_array : ndarray)
    (response : DetectResponse) (visual : VisualResponse) :
  run_model file confidence (Some iou) = Returns inference ->
  run_model_array file confidence iou = Returns (img_array, inference') ->
  boxes inference' = boxes inference ->
  detect_grains run_model str_HTTPException file confidence iou = Returns response ->
  detect_with_visualization run_model_array cv2 encode_jpeg str_HTTPException
    file confidence iou return_image = Returns visual ->
  v_detections visual = corners_only <$> detections response /\
  v_statistics visual = statistics response /\
  (return_image = false -> v_annotated_image visual = None) /\
  (return_image = true ->
   exists annotated_array img_base64,
     draw_detections cv2 img_array (boxes inference) = Returns annotated_array /\
     encode_jpeg annotated_array = Returns img_base64 /\
     v_annotated_image visual = Some (data_url img_base64)).
Proof.
  intros Hrun Hrun' Hboxes H Hv.
  destruct (detect_grains_inv _ _ _ _ _ _ H)
    as (ct & inference0 & _ & _ & Hrun0 & ->).
  rewrite Hrun in Hrun0. injection Hrun0 as <-.
  destruct (detect_with_visualization_inv _ _ _ _ _ _ _ _ _ Hv)
    as (img_array1 & inference1 & img_base64 & Hrun1 & _ & Hann & ->).
  rewrite Hrun' in Hrun1. injection Hrun1 as <- <-.
  rewrite Hboxes in *. simpl.
  split; [reflexivity |]. split; [reflexivity |].
  destruct (annotate_inv _ _ _ _ _ _ Hann)
    as [[-> ->] | (-> & annotated_array & text & Hdraw & Henc & ->)].
  - split; [reflexivity | discriminate].
  - split; [discriminate |]. intros _. eauto 10.
Qed.

Lemma visualization_agrees_with_detect_witness :
  (model_finding [box_of_class 0; box_of_class 2] (image_file "a.jpg") (1 # 4) (Some (9 # 20))
     = Returns {| img_width := 640; img_height := 640;
                  boxes := [box_of_class 0; box_of_class 2] |} /\
   array_model_finding no_pixels [box_of_class 0; box_of_class 2]
     (image_file "a.jpg") (1 # 4) (9 # 20)
     = Returns (no_pixels, {| img_width := 640; img_height := 640;
                              boxes := [box_of_class 0; box_of_class 2] |})) /\
  exists response visual,
    detect_grains (model_finding [box_of_class 0; box_of_class 2]) status_and_detail
      (image_file "a.jpg") (1 # 4) (9 # 20) = Returns response /\
    detect_with_visualization
      (array_model_finding no_pixels [box_of_class 0; box_of_class 2])
      cv2_quiet encode_quiet status_and_detail
      (image_file "a.jpg") (1 # 4) (9 # 20) true = Returns visual /\
    v_statistics visual = statistics response.
Proof.
  split; [split; reflexivity |].
  eexists. eexists. split; [reflexivity |]. split; [reflexivity |].
  exact (proj1 (proj2 (visualization_agrees_with_detect
           (model_finding [box_of_class 0; box_of_class 2])
           (array_model_finding no_pixels [box_of_class 0; box_of_class 2])
           cv2_quiet encode_quiet status_and_detail
           (image_file "a.jpg") (1 # 4) (9 # 20) true _ _ _ _ _
           eq_refl eq_refl eq_refl eq_refl eq_refl))).
Defined.

(** X14. [/detect-with-image] answers exactly when the pipeline returns,
    every box has class index 0, 1 or 2 and, if the image is asked for,
    [draw_detections] and the JPEG and base64 encoding return; every
    failure it reports has status 500.  The content type of the upload
    plays no part. *)
Theorem detect_with_visualization_succeeds_iff
    (run_model_array : UploadFile -> Q -> Q -> outcome (ndarray * Inference))
    (cv2 : Cv2) (encode_jpeg : ndarray -> outcome string)
    (str_HTTPException : Z -> string -> string)
    (file : UploadFile) (confidence iou : Q) (return_image : bool) :
  ((exists visual,
      detect_with_visualization run_model_array cv2 encode_jpeg str_HTTPException
        file confidence iou return_image = Returns visual)
   <-> (exists img_array inference,
          run_model_array file confidence iou = Returns (img_array, inference) /\
          Forall (fun box => known_class (cls box)) (boxes inference) /\
          (return_image = true ->
           exists annotated_array img_base64,
             draw_detections cv2 img_array (boxes inference)
               = Returns annotated_array /\
             encode_jpeg annotated_array = Returns img_base64))) /\
  (forall e,
     detect_with_visualization run_model_array cv2 encode_jpeg str_HTTPException
       file confidence iou return_image = Raises e ->
     exists detail, e = HTTPException 500 detail).
Proof.
  split; [split |].
  - intros [visual H].
    destruct (detect_with_visualization_inv _ _ _ _ _ _ _ _ _ H)
      as (img_array & inference & img_base64 & Hrun & Hall & Hann & _).
    exists img_array, inference. split; [exact Hrun |]. split; [exact Hall |].
    intros ->.
    destruct (annotate_inv _ _ _ _ _ _ Hann)
      as [[Hf _] | (_ & annotated_array & text & Hdraw & Henc & _)];
      [discriminate | eauto].
  - intros (img_array & inference & Hrun & Hall & Himg).
    unfold detect_with_visualization.
    rewrite (detect_with_visualization_try_known _ _ _ _ _ _ _ _ _ Hrun Hall).
    unfold annotate. destruct return_image.
    + destruct (Himg eq_refl) as (annotated_array & text & -> & Henc).
      simpl. rewrite Henc. simpl. eauto.
    + simpl. eauto.
  - intros e. unfold detect_with_visualization.
    destruct (detect_with_visualization_try _ _ _ _ _ _ _); [discriminate |].
    intros H. injection H as <-. eauto.
Qed.

(** X15. When a box has a class index other than 0, 1, 2, the detail of
    the status 500 of [/detect-with-image] is that index in decimal, for
    the first such box. *)
Theorem detect_with_visualization_detail
    (run_model_array : UploadFile -> Q -> Q -> outcome (ndarray * Inference))
    (cv2 : Cv2) (encode_jpeg : ndarray -> outcome string)
    (str_HTTPException : Z -> string -> string)
    (file : UploadFile) (confidence iou : Q) (return_image : bool)
    (img_array : ndarray) (inference : Inference)
    (pre post : list Box) (box : Box) :
  run_model_array file confidence iou = Returns (img_array, inference) ->
  boxes inference = pre ++ box :: post ->
  Forall (fun box => known_class (cls box)) pre ->
  ~ known_class (cls box) ->
  detect_with_visualization run_model_array cv2 encode_jpeg str_HTTPException
    file confidence iou return_image
  = Raises (HTTPException 500 (pretty (cls box))).
Proof. apply detect_with_visualization_first_unknown. Qed.

Lemma detect_with_visualization_detail_witness :
  (array_model_finding no_pixels [box_of_class 1; box_of_class 4; box_of_class 6]
     (image_file "a.jpg") (1 # 4) (9 # 20)
     = Returns (no_pixels,
                {| img_width := 640; img_height := 640;
                   boxes := [box_of_class 1; box_of_class 4; box_of_class 6] |}) /\
   Forall (fun box => known_class (cls box)) [box_of_class 1] /\
   ~ known_class (cls (box_of_class 4))) /\
  detect_with_visualization
    (array_model_finding no_pixels [box_of_class 1; box_of_class 4; box_of_class 6])
    cv2_quiet encode_quiet status_and_detail (image_file "a.jpg") (1 # 4) (9 # 20) false
  = Raises (HTTPException 500 "4").
Proof.
  assert (Hpre : Forall (fun box => known_class (cls box)) [box_of_class 1]).
  { constructor; [right; left; reflexivity | constructor]. }
  assert (Hbox : ~ known_class (cls (box_of_class 4))).
  { intros [H | [H | H]]; discriminate. }
  split; [split; [reflexivity | split; assumption] |].
  exact (detect_with_visualization_detail
           (array_model_finding no_pixels
              [box_of_class 1; box_of_class 4; box_of_class 6])
           cv2_quiet encode_quiet status_and_detail
           (image_file "a.jpg") (1 # 4) (9 # 20) false
           _ _ [box_of_class 1] [box_of_class 6] (box_of_class 4)
           eq_refl eq_refl Hpre Hbox).
Defined.

(** X16. Asking [/detect-with-image] for the annotated image never
    changes the detections or the statistics.  If the plain call fails,
    the call with the image fails with the same exception.  If the plain
    call answers, the call with the image answers with the same
    detections and statistics and an image, unless [draw_detections] or
    the encoding raises: then it fails with status 500 and the message of
    that exception, where the plain call answered. *)
Theorem return_image_only_adds_image
    (run_model_array : UploadFile -> Q -> Q -> outcome (ndarray * Inference))
    (cv2 : Cv2) (encode_jpeg : ndarray -> outcome string)
    (str_HTTPException : Z -> string -> string)
    (file : UploadFile) (confidence iou : Q) :
  match detect_with_visualization run_model_array cv2 encode_jpeg str_HTTPException
          file confidence iou false with
  | Returns plain =>
      v_annotated_image plain = None /\
      match detect_with_visualization run_model_array cv2 encode_jpeg
              str_HTTPException file confidence iou true with
      | Returns full =>
          v_success full = v_success plain /\
          v_detections full = v_detections plain /\
          v_statistics full = v_statistics plain /\
          exists img_base64, v_annotated_image full = Some (data_url img_base64)
      | Raises e =>
          exists img_array inference e',
            run_model_array file confidence iou = Returns (img_array, inference) /\
            e = HTTPException 500 (str str_HTTPException e') /\
            (draw_detections cv2 img_array (boxes inference) = Raises e' \/
             exists annotated_array,
               draw_detections cv2 img_array (boxes inference)
                 = Returns annotated_array /\
               encode_jpeg annotated_array = Raises e')
      end
  | Raises e =>
      detect_with_visualization run_model_array cv2 encode_jpeg str_HTTPException
        file confidence iou true = Raises e
  end.
Proof.
  destruct (run_model_array file confidence iou) as [[img_array inference] | e]
    eqn:Hrun.
  - destruct (first_unknown_box (boxes inference))
      as [Hall | (pre & b & post & Heq & Hpre & Hb)].
    + unfold detect_with_visualization.
      rewrite !(detect_with_visualization_try_known _ _ _ _ _ _ _ _ _ Hrun Hall).
      unfold annotate. simpl. split; [reflexivity |].
      destruct (draw_detections cv2 img_array (boxes inference))
        as [annotated_array | e'] eqn:Hdraw; simpl.
      * destruct (encode_jpeg annotated_array) as [text | e'] eqn:Henc; simpl.
        -- repeat split. eauto.
        -- exists img_array, inference, e'. eauto 10.
      * exists img_array, inference, e'. eauto 10.
    + rewrite !(detect_with_visualization_first_unknown
                  _ _ _ str_HTTPException _ _ _ _ _ _ _ _ _ Hrun Heq Hpre Hb).
      reflexivity.
  - unfold detect_with_visualization, detect_with_visualization_try.
    rewrite Hrun. reflexivity.
Qed.

(** With an encoder that refuses the array, the plain call answers and
    the call with the image is a status 500 with the encoder's
    message. *)
Example encoding_failure_reaches_client :
  (exists plain,
     detect_with_visualization (array_model_finding no_pixels [box_of_class 0])
       cv2_quiet encode_refusing status_and_detail
       (image_file "a.jpg") (1 # 4) (9 # 20) false = Returns plain) /\
  detect_with_visualization (array_model_finding no_pixels [box_of_class 0])
    cv2_quiet encode_refusing status_and_detail
    (image_file "a.jpg") (1 # 4) (9 # 20) true
  = Raises (HTTPException 500 "Maximum supported image dimension is 65500 pixels").
Proof. split; [eexists |]; reflexivity. Qed.

(** ** The geometry of a detection *)

Lemma round_half_even_mono (q1 q2 : Q) :
  (q1 <= q2)%Q -> (Py.round_half_even q1 <= Py.round_half_even q2)%Z.
Proof.
  intros Hle.
  pose proof (Qfloor_resp_le _ _ Hle) as Hf.
  destruct (Z.eq_dec (Qfloor q1) (Qfloor q2)) as [Heq | Hne].
  - unfold Py.round_half_even. cbv zeta. rewrite Heq.
    assert (Hr : (q1 - inject_Z (Qfloor q2) <= q2 - inject_Z (Qfloor q2))%Q) by lra.
    destruct (_ ?= _)%Q eqn:H1;
      [apply Qeq_alt in H1 | apply Qlt_alt in H1 | apply Qgt_alt in H1];
      (destruct (_ ?= _)%Q eqn:H2;
       [apply Qeq_alt in H2 | apply Qlt_alt in H2 | apply Qgt_alt in H2]);
      try (exfalso; lra); destruct (Z.even (Qfloor q2)); lia.
  - pose proof (round_half_even_floor q1). pose proof (round_half_even_floor q2).
    lia.
Qed.

(** [round] is monotonic. *)
Lemma round_mono (q1 q2 : Q) (ndigits : nat) :
  (q1 <= q2)%Q -> (Py.round q1 ndigits <= Py.round q2 ndigits)%Q.
Proof.
  intros Hle. unfold Py.round.
  pose proof (scale_pos ndigits) as Hs.
  set (scale := inject_Z (10 ^ Z.of_nat ndigits)) in *.
  unfold Qdiv. apply Qmult_le_compat_r.
  - rewrite <- Zle_Qle. apply round_half_even_mono.
    apply Qmult_le_compat_r; [exact Hle | apply Qlt_le_weak; exact Hs].
  - apply Qlt_le_weak, Qinv_lt_0_compat; exact Hs.
Qed.

(** X17. For a box with [x1 <= x2] and [y1 <= y2], the bbox of the
    detection of [/detect] keeps the corners in order after rounding,
    has its centre between them, and a width and a height that are not
    negative. *)
Theorem detection_bbox_ordered (idx : nat) (box : Box) (x1 y1 x2 y2 : Q) :
  xyxy box = (x1, y1, x2, y2) ->
  (x1 <= x2)%Q -> (y1 <= y2)%Q ->
  let bbox := d_bbox (detect_grains_detection idx box) in
  exists rx1 ry1 rx2 ry2 cx cy w h,
    entry "x1" bbox = Some rx1 /\ entry "y1" bbox = Some ry1 /\
    entry "x2" bbox = Some rx2 /\ entry "y2" bbox = Some ry2 /\
    entry "center_x" bbox = Some cx /\ entry "center_y" bbox = Some cy /\
    entry "width" bbox = Some w /\ entry "height" bbox = Some h /\
    (rx1 <= cx <= rx2)%Q /\ (ry1 <= cy <= ry2)%Q /\
    (0 <= w)%Q /\ (0 <= h)%Q.
Proof.
  intros Hxy Hx Hy. cbv zeta. unfold detect_grains_detection. rewrite Hxy.
  do 8 eexists. simpl.
  repeat (split; [reflexivity |]).
  assert (Hcx : (x1 <= (x1 + x2) / 2 <= x2)%Q).
  { unfold Qdiv. change (/ 2)%Q with (1 # 2)%Q. split; lra. }
  assert (Hcy : (y1 <= (y1 + y2) / 2 <= y2)%Q).
  { unfold Qdiv. change (/ 2)%Q with (1 # 2)%Q. split; lra. }
  assert (Hzero : (0 <= Py.round 0 2)%Q) by discriminate.
  repeat split; try (apply round_mono; tauto).
  - apply (Qle_trans _ _ _ Hzero), round_mono. lra.
  - apply (Qle_trans _ _ _ Hzero), round_mono. lra.
Qed.

Lemma detection_bbox_ordered_witness :
  (xyxy (box_of_class 0) = (0, 0, 10, 10)%Q /\ (0 <= 10)%Q) /\
  exists w, entry "width" (d_bbox (detect_grains_detection 0 (box_of_class 0)))
            = Some w /\ (0 <= w)%Q.
Proof.
  assert (H : (0 <= 10)%Q) by discriminate.
  split; [split; [reflexivity | exact H] |].
  destruct (detection_bbox_ordered 0 (box_of_class 0) 0 0 10 10 eq_refl H H)
    as (rx1 & ry1 & rx2 & ry2 & cx & cy & w & h & _ & _ & _ & _ & _ & _ & Hw & _ & _ & _ & Hpos & _).
  exists w. split; [exact Hw | exact Hpos].
Defined.

(** ** How the grade follows the detections *)

Lemma grade_rank_mono (p1 p2 : Q) :
  (p1 <= p2)%Q ->
  exists r1 r2,
    grade_rank (get_quality_grade p1) = Some r1 /\
    grade_rank (get_quality_grade p2) = Some r2 /\
    r1 <= r2.
Proof.
  intros Hle.
  destruct (get_quality_grade_cases p1)
    as [[H1 ->] | [[H1 ->] | [[H1 ->] | [[H1 ->] | [H1 ->]]]]];
  destruct (get_quality_grade_cases p2)
    as [[H2 ->] | [[H2 ->] | [[H2 ->] | [[H2 ->] | [H2 ->]]]]];
  try (exfalso; lra);
  eexists; eexists; (split; [reflexivity | split; [reflexivity | lia]]).
Qed.

Lemma Qdiv_le_cross (a b c d : Q) :
  (0 < b)%Q -> (0 < d)%Q -> (a * d <= c * b)%Q -> (a / b <= c / d)%Q.
Proof.
  intros Hb Hd H.
  apply Qle_shift_div_l; [exact Hd |].
  assert (E : (a / b * d == a * d / b)%Q) by (field; lra).
  rewrite E. apply Qle_shift_div_r; assumption.
Qed.

Lemma ratio_percent_le (g n g' n' : nat) :
  0 < n -> 0 < n' -> g * n' <= g' * n ->
  (Py.ratio_percent g n <= Py.ratio_percent g' n')%Q.
Proof.
  intros Hn Hn' H.
  rewrite (ratio_percent_alt g n Hn), (ratio_percent_alt g' n' Hn').
  apply Qdiv_le_cross; try (apply inject_nat_pos; assumption).
  rewrite <- !inject_Z_mult, <- Zle_Qle. nia.
Qed.

Lemma quality_of_add_good (g n : nat) :
  g <= n -> (quality_of g n <= quality_of (S g) (S n))%Q.
Proof.
  intros Hle. unfold quality_of at 1.
  destruct (Nat.ltb_spec 0 n) as [Hn | Hn].
  - unfold quality_of. simpl Nat.ltb.
    apply ratio_percent_le; lia.
  - apply (quality_of_between (S g) (S n)). lia.
Qed.

Lemma quality_of_add_other (g n : nat) :
  g <= n -> (quality_of g (S n) <= quality_of g n)%Q.
Proof.
  intros Hle. unfold quality_of at 2.
  destruct (Nat.ltb_spec 0 n) as [Hn | Hn].
  - unfold quality_of. simpl Nat.ltb.
    apply ratio_percent_le; lia.
  - assert (g = 0) as -> by lia. discriminate.
Qed.

(** X18. One more good detection never lowers the grade of a list, and
    one more detection of any other label never raises it (grades ranked
    F < D < C < B < A). *)
Theorem grade_follows_detections (d : Detection) (detections : list Detection) :
  let before := quality_grade (statistics_of detections) in
  let after := quality_grade (statistics_of (d :: detections)) in
  (d_class d = "good" ->
   exists r r', grade_rank before = Some r /\ grade_rank after = Some r' /\ r <= r') /\
  (d_class d <> "good" ->
   exists r r', grade_rank before = Some r /\ grade_rank after = Some r' /\ r' <= r).
Proof.
  cbv zeta. unfold statistics_of; simpl.
  rewrite class_count_cons.
  pose proof (class_count_le "good" detections) as Hle.
  split; intros Hd; destruct (decide (d_class d = "good")); try contradiction.
  - apply grade_rank_mono, quality_of_add_good, Hle.
  - destruct (grade_rank_mono _ _ (quality_of_add_other _ _ Hle))
      as (r' & r & H' & H & Hr).
    exists r, r'. auto.
Qed.

Lemma grade_follows_detections_witness :
  d_class (detect_grains_detection 0 (box_of_class 0)) = "good" /\
  exists r r',
    grade_rank (quality_grade (statistics_of [])) = Some r /\
    grade_rank (quality_grade
                  (statistics_of [detect_grains_detection 0 (box_of_class 0)]))
      = Some r' /\
    r <= r'.
Proof.
  assert (H : d_class (detect_grains_detection 0 (box_of_class 0)) = "good")
    by reflexivity.
  split; [exact H |].
  exact (proj1 (grade_follows_detections
                  (detect_grains_detection 0 (box_of_class 0)) []) H).
Defined.

(** ** The loss formulas, once more *)

(** X19. The three steps of the docstring amount to
    [N * W1000 / (100 * S)] for any area that is not zero, and the line
    the docstring gives as their simplification is a thousand times
    that. *)
Theorem loss_by_steps_closed_form (N : Z) (W1000 S : Q) :
  ~ (S == 0)%Q ->
  (LossFormula.loss_by_steps N W1000 S == inject_Z N * W1000 / (100 * S))%Q /\
  (LossFormula.loss_headline N W1000 S == inject_Z N * W1000 / (100 * S))%Q /\
  (LossFormula.loss_one_line N W1000 S
   == 1000 * (inject_Z N * W1000 / (100 * S)))%Q.
Proof.
  intros HS.
  unfold LossFormula.loss_one_line, LossFormula.loss_headline,
    LossFormula.loss_by_steps, LossFormula.density, LossFormula.W_photo.
  repeat split; field; exact HS.
Qed.

Lemma loss_by_steps_closed_form_witness :
  ~ (1 # 10 == 0)%Q /\
  (LossFormula.loss_by_steps 25 40 (1 # 10)
   == inject_Z 25 * 40 / (100 * (1 # 10)))%Q.
Proof.
  assert (H : ~ (1 # 10 == 0)%Q) by discriminate.
  split; [exact H |].
  exact (proj1 (loss_by_steps_closed_form 25 40 (1 # 10) H)).
Defined.
